(** * Transaction simulation engine (src/src/simulation_engine.py)

    A shallow embedding of [SimulationEngine] and the properties of
    [simulate_transaction], [_analyze_asset_changes], [_get_eth_price]
    and [_generate_warnings].

    Conventions of the embedding.
    - A Python [str] is a Rocq [string] holding its UTF-8 encoding; [len],
      [strip] and [startswith] work on the characters of that encoding.
    - A Python [int] is a [Z]; a Python [float] is an IEEE-754 binary64
      value, [spec_float] at precision 53 and maximal exponent 1024.
    - A Python [dict] with string keys is a [gmap string _]; the transaction
      payload, whose keys are fixed, is a record with optional fields.
    - Raising is the left summand of [exn + A], for exceptions that are
      instances of [Exception]; the requests sent to the node are collected
      in a trace threaded through the monad [M].
    - A call to [logger] has no effect on the result; what is kept of it is
      the formatting of its f-string argument, which Python evaluates before
      the call and which raises on an integer of more than 4300 digits.
    - The tables of Unicode properties ([isspace], decimal digits,
      [isprintable]) are those of Unicode 14.0, the version of CPython 3.11;
      strings are taken without lone surrogates, which UTF-8 cannot hold. *)

From Stdlib Require Import ZArith NArith String Ascii List Bool Lia.
From Stdlib Require Import Floats.SpecFloat.
From stdpp Require Import gmap strings pretty list.

Open Scope string_scope.
Open Scope list_scope.
Open Scope Z_scope.

(** ** Exceptions *)

(** An exception object: its class name and the text [str(e)] gives. *)
Record exn := Exn { exn_class : string; exn_str : string }.

Definition Exc (A : Type) : Type := (exn + A)%type.

Definition ValueError (msg : string) : exn := Exn "ValueError" msg.

#[global] Instance Exc_ret : MRet Exc := fun A (a : A) => inr a.

#[global] Instance Exc_bind : MBind Exc := fun A B (f : A -> Exc B) (m : Exc A) =>
  match m with
  | inr a => f a
  | inl e => inl e
  end.

(** ** Python strings *)

Module PyStr.

(** Bytes 0x80..0xBF continue a UTF-8 character. *)
Definition is_continuation (c : ascii) : bool :=
  let n := N_of_ascii c in ((128 <=? n) && (n <? 192))%N.

Definition continues (s : string) : bool :=
  match s with String c _ => is_continuation c | EmptyString => false end.

(** The characters of a string, each with the bytes that encode it. *)
Fixpoint chars (s : string) : list string :=
  match s with
  | EmptyString => []
  | String c rest =>
      let chs := chars rest in
      if continues rest then
        match chs with
        | ch :: chs' => String c ch :: chs'
        | [] => [String c ""]
        end
      else String c "" :: chs
  end.

Definition join (l : list string) : string := fold_right String.append "" l.

(** [len(s)] *)
Definition len (s : string) : Z := Z.of_nat (length (chars s)).

(** [s.startswith(p)] *)
Definition startswith (p s : string) : bool := String.prefix p s.

Definition byte (n : N) : ascii := ascii_of_N n.

(** UTF-8 encoding of one code point. *)
Definition encode_utf8 (cp : N) : string :=
  (if cp <? 128 then String (byte cp) ""
   else if cp <? 2048 then
     String (byte (192 + cp / 64)) (String (byte (128 + cp mod 64)) "")
   else if cp <? 65536 then
     String (byte (224 + cp / 4096))
       (String (byte (128 + (cp / 64) mod 64))
          (String (byte (128 + cp mod 64)) ""))
   else
     String (byte (240 + cp / 262144))
       (String (byte (128 + (cp / 4096) mod 64))
          (String (byte (128 + (cp / 64) mod 64))
             (String (byte (128 + cp mod 64)) ""))))%N.

(** Code points for which [str.isspace] holds (the table behind
    [Py_UNICODE_ISSPACE]). *)
Definition whitespace_code_points : list N :=
  [9; 10; 11; 12; 13; 28; 29; 30; 31; 32; 133; 160; 5760;
   8192; 8193; 8194; 8195; 8196; 8197; 8198; 8199; 8200; 8201; 8202;
   8232; 8233; 8239; 8287; 12288]%N.

Definition is_space (ch : string) : bool :=
  existsb (fun cp => String.eqb ch (encode_utf8 cp)) whitespace_code_points.

Fixpoint lstrip_chars (l : list string) : list string :=
  match l with
  | ch :: l' => if is_space ch then lstrip_chars l' else l
  | [] => []
  end.

(** The code point a character encodes. *)
Definition code_point (ch : string) : N :=
  match map N_of_ascii (list_ascii_of_string ch) with
  | [a] => a
  | [a; b] => (a - 192) * 64 + (b - 128)
  | [a; b; c] => (a - 224) * 4096 + (b - 128) * 64 + (c - 128)
  | [a; b; c; d] =>
      (a - 240) * 262144 + (b - 128) * 4096 + (c - 128) * 64 + (d - 128)
  | _ => 0
  end%N.

(** [s.strip()] *)
Definition strip (s : string) : string :=
  join (rev (lstrip_chars (rev (lstrip_chars (chars s))))).

(** Truth value of a string: [if s:] *)
Definition truthy (s : string) : bool :=
  match s with EmptyString => false | _ => true end.

Definition hex_digit (n : N) : ascii :=
  (if n <? 10 then byte (48 + n) else byte (87 + n))%N.

Definition dquote : ascii := "034"%char.
Definition squote : ascii := "'"%char.
Definition backslash : ascii := "\"%char.

Definition contains (c : ascii) (s : string) : bool :=
  existsb (Ascii.eqb c) (list_ascii_of_string s).

(** The code points from 128 on for which [str.isprintable] fails (the
    table behind [Py_UNICODE_ISPRINTABLE]), as closed ranges. *)
Definition nonprintable_ranges : list (N * N) :=
  [
   (128, 160); (173, 173); (888, 889); (896, 899); (907, 907);
   (909, 909); (930, 930); (1328, 1328); (1367, 1368); (1419, 1420);
   (1424, 1424); (1480, 1487); (1515, 1518); (1525, 1541); (1564, 1564);
   (1757, 1757); (1806, 1807); (1867, 1868); (1970, 1983); (2043, 2044);
   (2094, 2095); (2111, 2111); (2140, 2141); (2143, 2143); (2155, 2159);
   (2191, 2199); (2274, 2274); (2436, 2436); (2445, 2446); (2449, 2450);
   (2473, 2473); (2481, 2481); (2483, 2485); (2490, 2491); (2501, 2502);
   (2505, 2506); (2511, 2518); (2520, 2523); (2526, 2526); (2532, 2533);
   (2559, 2560); (2564, 2564); (2571, 2574); (2577, 2578); (2601, 2601);
   (2609, 2609); (2612, 2612); (2615, 2615); (2618, 2619); (2621, 2621);
   (2627, 2630); (2633, 2634); (2638, 2640); (2642, 2648); (2653, 2653);
   (2655, 2661); (2679, 2688); (2692, 2692); (2702, 2702); (2706, 2706);
   (2729, 2729); (2737, 2737); (2740, 2740); (2746, 2747); (2758, 2758);
   (2762, 2762); (2766, 2767); (2769, 2783); (2788, 2789); (2802, 2808);
   (2816, 2816); (2820, 2820); (2829, 2830); (2833, 2834); (2857, 2857);
   (2865, 2865); (2868, 2868); (2874, 2875); (2885, 2886); (2889, 2890);
   (2894, 2900); (2904, 2907); (2910, 2910); (2916, 2917); (2936, 2945);
   (2948, 2948); (2955, 2957); (2961, 2961); (2966, 2968); (2971, 2971);
   (2973, 2973); (2976, 2978); (2981, 2983); (2987, 2989); (3002, 3005);
   (3011, 3013); (3017, 3017); (3022, 3023); (3025, 3030); (3032, 3045);
   (3067, 3071); (3085, 3085); (3089, 3089); (3113, 3113); (3130, 3131);
   (3141, 3141); (3145, 3145); (3150, 3156); (3159, 3159); (3163, 3164);
   (3166, 3167); (3172, 3173); (3184, 3190); (3213, 3213); (3217, 3217);
   (3241, 3241); (3252, 3252); (3258, 3259); (3269, 3269); (3273, 3273);
   (3278, 3284); (3287, 3292); (3295, 3295); (3300, 3301); (3312, 3312);
   (3315, 3327); (3341, 3341); (3345, 3345); (3397, 3397); (3401, 3401);
   (3408, 3411); (3428, 3429); (3456, 3456); (3460, 3460); (3479, 3481);
   (3506, 3506); (3516, 3516); (3518, 3519); (3527, 3529); (3531, 3534);
   (3541, 3541); (3543, 3543); (3552, 3557); (3568, 3569); (3573, 3584);
   (3643, 3646); (3676, 3712); (3715, 3715); (3717, 3717); (3723, 3723);
   (3748, 3748); (3750, 3750); (3774, 3775); (3781, 3781); (3783, 3783);
   (3790, 3791); (3802, 3803); (3808, 3839); (3912, 3912); (3949, 3952);
   (3992, 3992); (4029, 4029); (4045, 4045); (4059, 4095); (4294, 4294);
   (4296, 4300); (4302, 4303); (4681, 4681); (4686, 4687); (4695, 4695);
   (4697, 4697); (4702, 4703); (4745, 4745); (4750, 4751); (4785, 4785);
   (4790, 4791); (4799, 4799); (4801, 4801); (4806, 4807); (4823, 4823);
   (4881, 4881); (4886, 4887); (4955, 4956); (4989, 4991); (5018, 5023);
   (5110, 5111); (5118, 5119); (5760, 5760); (5789, 5791); (5881, 5887);
   (5910, 5918); (5943, 5951); (5972, 5983); (5997, 5997); (6001, 6001);
   (6004, 6015); (6110, 6111); (6122, 6127); (6138, 6143); (6158, 6158);
   (6170, 6175); (6265, 6271); (6315, 6319); (6390, 6399); (6431, 6431);
   (6444, 6447); (6460, 6463); (6465, 6467); (6510, 6511); (6517, 6527);
   (6572, 6575); (6602, 6607); (6619, 6621); (6684, 6685); (6751, 6751);
   (6781, 6782); (6794, 6799); (6810, 6815); (6830, 6831); (6863, 6911);
   (6989, 6991); (7039, 7039); (7156, 7163); (7224, 7226); (7242, 7244);
   (7305, 7311); (7355, 7356); (7368, 7375); (7419, 7423); (7958, 7959);
   (7966, 7967); (8006, 8007); (8014, 8015); (8024, 8024); (8026, 8026);
   (8028, 8028); (8030, 8030); (8062, 8063); (8117, 8117); (8133, 8133);
   (8148, 8149); (8156, 8156); (8176, 8177); (8181, 8181); (8191, 8207);
   (8232, 8239); (8287, 8303); (8306, 8307); (8335, 8335); (8349, 8351);
   (8385, 8399); (8433, 8447); (8588, 8591); (9255, 9279); (9291, 9311);
   (11124, 11125); (11158, 11158); (11508, 11512); (11558, 11558); (11560, 11564);
   (11566, 11567); (11624, 11630); (11633, 11646); (11671, 11679); (11687, 11687);
   (11695, 11695); (11703, 11703); (11711, 11711); (11719, 11719); (11727, 11727);
   (11735, 11735); (11743, 11743); (11870, 11903); (11930, 11930); (12020, 12031);
   (12246, 12271); (12284, 12288); (12352, 12352); (12439, 12440); (12544, 12548);
   (12592, 12592); (12687, 12687); (12772, 12783); (12831, 12831); (42125, 42127);
   (42183, 42191); (42540, 42559); (42744, 42751); (42955, 42959); (42962, 42962);
   (42964, 42964); (42970, 42993); (43053, 43055); (43066, 43071); (43128, 43135);
   (43206, 43213); (43226, 43231); (43348, 43358); (43389, 43391); (43470, 43470);
   (43482, 43485); (43519, 43519); (43575, 43583); (43598, 43599); (43610, 43611);
   (43715, 43738); (43767, 43776); (43783, 43784); (43791, 43792); (43799, 43807);
   (43815, 43815); (43823, 43823); (43884, 43887); (44014, 44015); (44026, 44031);
   (55204, 55215); (55239, 55242); (55292, 63743); (64110, 64111); (64218, 64255);
   (64263, 64274); (64280, 64284); (64311, 64311); (64317, 64317); (64319, 64319);
   (64322, 64322); (64325, 64325); (64451, 64466); (64912, 64913); (64968, 64974);
   (64976, 65007); (65050, 65055); (65107, 65107); (65127, 65127); (65132, 65135);
   (65141, 65141); (65277, 65280); (65471, 65473); (65480, 65481); (65488, 65489);
   (65496, 65497); (65501, 65503); (65511, 65511); (65519, 65531); (65534, 65535);
   (65548, 65548); (65575, 65575); (65595, 65595); (65598, 65598); (65614, 65615);
   (65630, 65663); (65787, 65791); (65795, 65798); (65844, 65846); (65935, 65935);
   (65949, 65951); (65953, 65999); (66046, 66175); (66205, 66207); (66257, 66271);
   (66300, 66303); (66340, 66348); (66379, 66383); (66427, 66431); (66462, 66462);
   (66500, 66503); (66518, 66559); (66718, 66719); (66730, 66735); (66772, 66775);
   (66812, 66815); (66856, 66863); (66916, 66926); (66939, 66939); (66955, 66955);
   (66963, 66963); (66966, 66966); (66978, 66978); (66994, 66994); (67002, 67002);
   (67005, 67071); (67383, 67391); (67414, 67423); (67432, 67455); (67462, 67462);
   (67505, 67505); (67515, 67583); (67590, 67591); (67593, 67593); (67638, 67638);
   (67641, 67643); (67645, 67646); (67670, 67670); (67743, 67750); (67760, 67807);
   (67827, 67827); (67830, 67834); (67868, 67870); (67898, 67902); (67904, 67967);
   (68024, 68027); (68048, 68049); (68100, 68100); (68103, 68107); (68116, 68116);
   (68120, 68120); (68150, 68151); (68155, 68158); (68169, 68175); (68185, 68191);
   (68256, 68287); (68327, 68330); (68343, 68351); (68406, 68408); (68438, 68439);
   (68467, 68471); (68498, 68504); (68509, 68520); (68528, 68607); (68681, 68735);
   (68787, 68799); (68851, 68857); (68904, 68911); (68922, 69215); (69247, 69247);
   (69290, 69290); (69294, 69295); (69298, 69375); (69416, 69423); (69466, 69487);
   (69514, 69551); (69580, 69599); (69623, 69631); (69710, 69713); (69750, 69758);
   (69821, 69821); (69827, 69839); (69865, 69871); (69882, 69887); (69941, 69941);
   (69960, 69967); (70007, 70015); (70112, 70112); (70133, 70143); (70162, 70162);
   (70207, 70271); (70279, 70279); (70281, 70281); (70286, 70286); (70302, 70302);
   (70314, 70319); (70379, 70383); (70394, 70399); (70404, 70404); (70413, 70414);
   (70417, 70418); (70441, 70441); (70449, 70449); (70452, 70452); (70458, 70458);
   (70469, 70470); (70473, 70474); (70478, 70479); (70481, 70486); (70488, 70492);
   (70500, 70501); (70509, 70511); (70517, 70655); (70748, 70748); (70754, 70783);
   (70856, 70863); (70874, 71039); (71094, 71095); (71134, 71167); (71237, 71247);
   (71258, 71263); (71277, 71295); (71354, 71359); (71370, 71423); (71451, 71452);
   (71468, 71471); (71495, 71679); (71740, 71839); (71923, 71934); (71943, 71944);
   (71946, 71947); (71956, 71956); (71959, 71959); (71990, 71990); (71993, 71994);
   (72007, 72015); (72026, 72095); (72104, 72105); (72152, 72153); (72165, 72191);
   (72264, 72271); (72355, 72367); (72441, 72703); (72713, 72713); (72759, 72759);
   (72774, 72783); (72813, 72815); (72848, 72849); (72872, 72872); (72887, 72959);
   (72967, 72967); (72970, 72970); (73015, 73017); (73019, 73019); (73022, 73022);
   (73032, 73039); (73050, 73055); (73062, 73062); (73065, 73065); (73103, 73103);
   (73106, 73106); (73113, 73119); (73130, 73439); (73465, 73647); (73649, 73663);
   (73714, 73726); (74650, 74751); (74863, 74863); (74869, 74879); (75076, 77711);
   (77811, 77823); (78895, 82943); (83527, 92159); (92729, 92735); (92767, 92767);
   (92778, 92781); (92863, 92863); (92874, 92879); (92910, 92911); (92918, 92927);
   (92998, 93007); (93018, 93018); (93026, 93026); (93048, 93052); (93072, 93759);
   (93851, 93951); (94027, 94030); (94088, 94094); (94112, 94175); (94181, 94191);
   (94194, 94207); (100344, 100351); (101590, 101631); (101641, 110575); (110580, 110580);
   (110588, 110588); (110591, 110591); (110883, 110927); (110931, 110947); (110952, 110959);
   (111356, 113663); (113771, 113775); (113789, 113791); (113801, 113807); (113818, 113819);
   (113824, 118527); (118574, 118575); (118599, 118607); (118724, 118783); (119030, 119039);
   (119079, 119080); (119155, 119162); (119275, 119295); (119366, 119519); (119540, 119551);
   (119639, 119647); (119673, 119807); (119893, 119893); (119965, 119965); (119968, 119969);
   (119971, 119972); (119975, 119976); (119981, 119981); (119994, 119994); (119996, 119996);
   (120004, 120004); (120070, 120070); (120075, 120076); (120085, 120085); (120093, 120093);
   (120122, 120122); (120127, 120127); (120133, 120133); (120135, 120137); (120145, 120145);
   (120486, 120487); (120780, 120781); (121484, 121498); (121504, 121504); (121520, 122623);
   (122655, 122879); (122887, 122887); (122905, 122906); (122914, 122914); (122917, 122917);
   (122923, 123135); (123181, 123183); (123198, 123199); (123210, 123213); (123216, 123535);
   (123567, 123583); (123642, 123646); (123648, 124895); (124903, 124903); (124908, 124908);
   (124911, 124911); (124927, 124927); (125125, 125126); (125143, 125183); (125260, 125263);
   (125274, 125277); (125280, 126064); (126133, 126208); (126270, 126463); (126468, 126468);
   (126496, 126496); (126499, 126499); (126501, 126502); (126504, 126504); (126515, 126515);
   (126520, 126520); (126522, 126522); (126524, 126529); (126531, 126534); (126536, 126536);
   (126538, 126538); (126540, 126540); (126544, 126544); (126547, 126547); (126549, 126550);
   (126552, 126552); (126554, 126554); (126556, 126556); (126558, 126558); (126560, 126560);
   (126563, 126563); (126565, 126566); (126571, 126571); (126579, 126579); (126584, 126584);
   (126589, 126589); (126591, 126591); (126602, 126602); (126620, 126624); (126628, 126628);
   (126634, 126634); (126652, 126703); (126706, 126975); (127020, 127023); (127124, 127135);
   (127151, 127152); (127168, 127168); (127184, 127184); (127222, 127231); (127406, 127461);
   (127491, 127503); (127548, 127551); (127561, 127567); (127570, 127583); (127590, 127743);
   (128728, 128732); (128749, 128751); (128765, 128767); (128884, 128895); (128985, 128991);
   (129004, 129007); (129009, 129023); (129036, 129039); (129096, 129103); (129114, 129119);
   (129160, 129167); (129198, 129199); (129202, 129279); (129620, 129631); (129646, 129647);
   (129653, 129655); (129661, 129663); (129671, 129679); (129709, 129711); (129723, 129727);
   (129734, 129743); (129754, 129759); (129768, 129775); (129783, 129791); (129939, 129939);
   (129995, 130031); (130042, 131071); (173792, 173823); (177977, 177983); (178206, 178207);
   (183970, 183983); (191457, 194559); (195102, 196607); (201547, 917759); (918000, 1114111)
  ]%N.

(** [Py_UNICODE_ISPRINTABLE] *)
Definition is_printable (cp : N) : bool :=
  (if cp <? 128 then (32 <=? cp) && (cp <? 127)
   else negb (existsb (fun r => (fst r <=? cp) && (cp <=? snd r))
                nonprintable_ranges))%N.

(** [width] hexadecimal digits of [n], lower case. *)
Fixpoint hex (width : nat) (n : N) : string :=
  match width with
  | O => ""
  | S w => hex w (n / 16) +:+ String (hex_digit (n mod 16)) ""
  end.

(** Escaping of one character inside [repr] ([unicode_repr]). *)
Definition repr_char (quote : ascii) (ch : string) : string :=
  let cp := code_point ch in
  if String.eqb ch (String quote "") || String.eqb ch (String backslash "")
  then String backslash ch
  else if (cp =? 9)%N then "\t"
  else if (cp =? 10)%N then "\n"
  else if (cp =? 13)%N then "\r"
  else if is_printable cp then ch
  else if (cp <? 256)%N then String backslash (String "x" (hex 2 cp))
  else if (cp <? 65536)%N then String backslash (String "u" (hex 4 cp))
  else String backslash (String "U" (hex 8 cp)).

(** [repr(s)] *)
Definition repr (s : string) : string :=
  let quote :=
    if contains squote s && negb (contains dquote s) then dquote else squote in
  String quote (join (map (repr_char quote) (chars s)) +:+ String quote "").

(** The first [n] characters of a string (the precision of [%.200R]). *)
Definition truncate (n : nat) (s : string) : string := join (take n (chars s)).

End PyStr.

(** ** [int(s)] and [int(s, 16)] on strings

    Follows [PyLong_FromUnicodeObject] and [PyLong_FromString]: spaces
    around the literal, an optional sign, for base 16 an optional [0x]
    prefix, digits that single underscores may separate. A decimal digit
    of any script stands for its ASCII digit. *)

Module PyInt.

Definition int_max_str_digits : nat := 4300.

(** The code points of the digit zero of each script: the ten digits of
    a script are consecutive (the table behind [Py_UNICODE_TODECIMAL]). *)
Definition decimal_zeros : list N :=
  [
   48; 1632; 1776; 1984; 2406; 2534; 2662; 2790; 2918; 3046;
   3174; 3302; 3430; 3558; 3664; 3792; 3872; 4160; 4240; 6112;
   6160; 6470; 6608; 6784; 6800; 6992; 7088; 7232; 7248; 42528;
   43216; 43264; 43472; 43504; 43600; 44016; 65296; 66720; 68912; 69734;
   69872; 69942; 70096; 70384; 70736; 70864; 71248; 71360; 71472; 71904;
   72016; 72784; 73040; 73120; 92768; 92864; 93008; 120782; 120792; 120802;
   120812; 120822; 123200; 123632; 125264; 130032
  ]%N.

(** [Py_UNICODE_TODECIMAL] *)
Definition to_decimal (cp : N) : option N :=
  match find (fun zero => (zero <=? cp) && (cp <? zero + 10))%N decimal_zeros with
  | Some zero => Some (cp - zero)%N
  | None => None
  end.

(** [_PyUnicode_TransformDecimalAndSpaceToASCII]: one byte per character. *)
Definition to_ascii (ch : string) : ascii :=
  let cp := PyStr.code_point ch in
  if (cp <? 127)%N then ascii_of_N cp
  else if PyStr.is_space ch then " "%char
  else
    match to_decimal cp with
    | Some d => ascii_of_N (48 + d)
    | None => "?"%char
    end.

(** [Py_ISSPACE] *)
Definition c_isspace (c : ascii) : bool :=
  let n := N_of_ascii c in (((9 <=? n) && (n <=? 13)) || (n =? 32))%N.

(** [_PyLong_DigitValue], restricted to the digits below [base]. *)
Definition digit_value (base : Z) (c : ascii) : option Z :=
  let n := Z.of_N (N_of_ascii c) in
  let v := if (48 <=? n) && (n <=? 57) then n - 48
           else if (97 <=? n) && (n <=? 122) then n - 87
           else if (65 <=? n) && (n <=? 90) then n - 55
           else 37 in
  if v <? base then Some v else None.

Fixpoint skip_spaces (s : list ascii) : list ascii :=
  match s with
  | c :: s' => if c_isspace c then skip_spaces s' else s
  | [] => []
  end.

Definition underscore : ascii := "_"%char.

(** The scan over digits: [Some (value, digits, rest)], or [None] for a
    doubled or trailing underscore. *)
Fixpoint scan_digits (base : Z) (s : list ascii) (prev_underscore : bool)
    (acc : Z) (digits : nat) : option (Z * nat * list ascii) :=
  match s with
  | c :: s' =>
      if Ascii.eqb c underscore then
        if prev_underscore then None
        else scan_digits base s' true acc digits
      else
        match digit_value base c with
        | Some d => scan_digits base s' false (acc * base + d) (S digits)
        | None => if prev_underscore then None else Some (acc, digits, s)
        end
  | [] => if prev_underscore then None else Some (acc, digits, [])
  end.

Definition skip_sign (s : list ascii) : bool * list ascii :=
  match s with
  | "+"%char :: s' => (false, s')
  | "-"%char :: s' => (true, s')
  | _ => (false, s)
  end.

Definition skip_prefix (base : Z) (s : list ascii) : list ascii :=
  match s with
  | "0"%char :: x :: s' =>
      if (base =? 16) && (Ascii.eqb x "x" || Ascii.eqb x "X") then
        match s' with
        | c :: s'' => if Ascii.eqb c underscore then s'' else s'
        | [] => s'
        end
      else s
  | _ => s
  end.

Inductive parse_error := Syntax | TooManyDigits (digits : nat).

Definition parse (base : Z) (s : list ascii) : parse_error + Z :=
  let '(negative, s1) := skip_sign (skip_spaces s) in
  let s2 := skip_prefix base s1 in
  match s2 with
  | c :: _ =>
      if Ascii.eqb c underscore then inl Syntax
      else
        match scan_digits base s2 false 0 0 with
        | None => inl Syntax
        | Some (v, digits, rest) =>
            if negb (base =? 16) && (int_max_str_digits <? digits)%nat
            then inl (TooManyDigits digits)
            else
              match digits, skip_spaces rest with
              | S _, [] => inr (if negative then - v else v)
              | _, _ => inl Syntax
              end
        end
  | [] => inl Syntax
  end.

Definition error_text (base : Z) (s : string) (e : parse_error) : string :=
  match e with
  | Syntax =>
      "invalid literal for int() with base " +:+ pretty base +:+ ": "
        +:+ PyStr.truncate 200 (PyStr.repr s)
  | TooManyDigits digits =>
      "Exceeds the limit (" +:+ pretty int_max_str_digits
        +:+ " digits) for integer string conversion: value has "
        +:+ pretty digits
        +:+ " digits; use sys.set_int_max_str_digits() to increase the limit"
  end.

(** [int(s, base)] for [base] 10 or 16 *)
Definition int (s : string) (base : Z) : Exc Z :=
  match parse base (map to_ascii (PyStr.chars s)) with
  | inr v => inr v
  | inl e => inl (ValueError (error_text base s e))
  end.

(** The least absolute value with more than 4300 decimal digits. *)
Definition str_bound : Z := 10 ^ Z.of_nat int_max_str_digits.

Definition str_limit_text : string :=
  "Exceeds the limit (" +:+ pretty int_max_str_digits
    +:+ " digits) for integer string conversion"
    +:+ "; use sys.set_int_max_str_digits() to increase the limit".

(** An integer has too many digits to be written in decimal. *)
Definition too_long (n : Z) : bool := str_bound <=? Z.abs n.

(** [str(n)], which is also what [{n}] in an f-string gives. *)
Definition str (n : Z) : Exc string :=
  if too_long n then inl (ValueError str_limit_text) else inr (pretty n).

End PyInt.

(** ** Python floats

    binary64 values with round-to-nearest-even, as [spec_float]. *)

Module PyFloat.

Definition prec : Z := 53.
Definition emax : Z := 1024.

Definition float : Type := spec_float.

(** The binary64 value nearest to the quotient [n / d], for [0 < d]:
    what [float] returns on an exact decimal or integer quotient. *)
Definition of_quot (n d : Z) : float :=
  match n, d with
  | Z0, _ => S754_zero false
  | Zpos p, Zpos q =>
      SFdiv prec emax (S754_finite false p 0) (S754_finite false q 0)
  | Zneg p, Zpos q =>
      SFdiv prec emax (S754_finite true p 0) (S754_finite false q 0)
  | _, _ => S754_nan
  end.

(** [float(n)] for an integer that binary64 holds exactly. *)
Definition of_int (n : Z) : float := of_quot n 1.

(** [x * y] *)
Definition mul (x y : float) : float := SFmul prec emax x y.

(** [x > n] for a float [x] and an integer [n] that binary64 holds
    exactly; false on a NaN. *)
Definition gt_int (x : float) (n : Z) : bool := SFltb (of_int n) x.

(** Nearest integer to [num / den], ties to even, for [0 <= num], [0 < den]. *)
Definition round_half_even (num den : Z) : Z :=
  let q := num / den in
  let r := num mod den in
  match 2 * r ?= den with
  | Lt => q
  | Gt => q + 1
  | Eq => if Z.even q then q else q + 1
  end.

(** [|x| * scale] rounded to an integer, ties to even, for a finite [x]
    of mantissa [m] and exponent [e]. *)
Definition scaled (m : positive) (e : Z) (scale : Z) : Z :=
  if 0 <=? e then Zpos m * 2 ^ e * scale
  else round_half_even (Zpos m * scale) (2 ^ (- e)).

(** [round(x, 4)]: the decimal with four places nearest to [x] (ties to
    even), then the binary64 value nearest to that decimal; infinities
    and NaN are returned as they are. *)
Definition round4 (x : float) : float :=
  match x with
  | S754_finite s m e =>
      let k := scaled m e 10000 in
      if k =? 0 then S754_zero s
      else of_quot (if s then - k else k) 10000
  | _ => x
  end.

Definition pad2 (n : Z) : string :=
  if n <? 10 then "0" +:+ pretty n else pretty n.

(** [f"{x:.2f}"] *)
Definition format_2f (x : float) : string :=
  match x with
  | S754_nan => "nan"
  | S754_infinity s => if s then "-inf" else "inf"
  | S754_zero s => if s then "-0.00" else "0.00"
  | S754_finite s m e =>
      let k := scaled m e 100 in
      (if s then "-" else "") +:+ pretty (k / 100) +:+ "." +:+ pad2 (k mod 100)
  end.

(** Sign bit clear and not a NaN: the value is [>= 0]. *)
Definition nonneg (x : float) : bool :=
  match x with
  | S754_zero s | S754_infinity s | S754_finite s _ _ => negb s
  | S754_nan => false
  end.

End PyFloat.

(** [f"{n:,}"]: decimal digits in groups of three. *)
Fixpoint commas_rev (l : list ascii) (i : nat) : list ascii :=
  match l with
  | [] => []
  | c :: l' =>
      match i, l' with
      | 2%nat, _ :: _ => c :: ","%char :: commas_rev l' 0
      | _, _ => c :: commas_rev l' (S i)
      end
  end.

Definition comma_digits (n : Z) : string :=
  let digits := list_ascii_of_string (pretty (Z.abs n)) in
  (if n <? 0 then "-" else "")
    +:+ string_of_list_ascii (rev (commas_rev (rev digits) 0)).

Definition format_comma (n : Z) : Exc string :=
  if PyInt.too_long n then inl (ValueError PyInt.str_limit_text)
  else inr (comma_digits n).

(** ** web3 currency helpers ([eth_utils.currency]) *)

Module Web3Units.

Definition ether : Z := 10 ^ 18.
Definition gwei : Z := 10 ^ 9.

Definition MIN_WEI : Z := 0.
Definition MAX_WEI : Z := 2 ^ 256 - 1.

(** What [from_wei] returns: the integer 0, or a [Decimal] computed at
    999 digits of precision, which holds the quotient exactly. *)
Inductive number := Int (n : Z) | Decimal (num unit : Z).

(** The text of the [ValueError] of [from_wei], as eth-utils 6.0 words
    it; earlier releases say [between 1 and]. *)
Definition range_text : string := "value must be between 0 and 2**256 - 1".

(** [from_wei(number, unit)] *)
Definition from_wei (n unit : Z) : Exc number :=
  if n =? 0 then inr (Int 0)
  else if (n <? MIN_WEI) || (MAX_WEI <? n) then inl (ValueError range_text)
  else inr (Decimal n unit).

(** [to_wei(n, unit)] for a small integer amount. *)
Definition to_wei (n unit : Z) : Z := n * unit.

(** [float(x)] on a result of [from_wei] *)
Definition to_float (x : number) : PyFloat.float :=
  match x with
  | Int n => PyFloat.of_int n
  | Decimal num unit => PyFloat.of_quot num unit
  end.

End Web3Units.

(** ** Data model *)

(** The transaction payload [tx]; [gas] and [gasPrice] are present only
    when the caller gave them. *)
Record Tx := {
  tx_from : string;
  tx_to : string;
  tx_value : Z;
  tx_data : string;
  tx_gas : option Z;
  tx_gasPrice : option Z
}.

(** One entry of [asset_changes]. *)
Record AssetChange := {
  asset_type : string;
  change_type : string;
  change_from : string;
  change_to : string;
  amount_wei : Z;
  amount_eth : PyFloat.float;
  symbol : string
}.

(** Values stored in the result dictionary. *)
Inductive pyval :=
| VNone
| VBool (b : bool)
| VInt (n : Z)
| VFloat (x : PyFloat.float)
| VStr (s : string)
| VChanges (l : list AssetChange)
| VStrs (l : list string).

(** [str] or [None], as in [error_msg]. *)
Definition of_optional_str (o : option string) : pyval :=
  match o with Some s => VStr s | None => VNone end.

(** Truth value of an [Optional[str]]: [None] and the empty string are false. *)
Definition truthy_opt (o : option string) : bool :=
  match o with Some s => PyStr.truthy s | None => false end.

(** ** The node behind a [Web3] handle

    What the endpoint answers to each of the three read-only queries: a
    value, or the exception web3 raises. The engine sends each query at
    most once per call, so a function of the payload covers every node. *)
Record Web3 := {
  call_reply : Tx -> Exc string;
  estimate_gas_reply : Tx -> Exc Z;
  gas_price_reply : Exc Z
}.

(** Requests sent to the node, oldest first. *)
Inductive rpc_request :=
| EthCall (tx : Tx)
| EthEstimateGas (tx : Tx)
| EthGasPrice.

Definition trace : Type := list rpc_request.

(** ** The monad of the engine: exceptions over a trace of requests *)

Definition M (A : Type) : Type := trace -> Exc A * trace.

#[global] Instance M_ret : MRet M := fun A (a : A) t => (inr a, t).

#[global] Instance M_bind : MBind M := fun A B (f : A -> M B) (m : M A) t =>
  match m t with
  | (inr a, t') => f a t'
  | (inl e, t') => (inl e, t')
  end.

(** A computation without requests. *)
Definition lift {A} (r : Exc A) : M A := fun t => (r, t).

(** [try: m except Exception as e: ...], the outcome handed to the caller. *)
Definition attempt {A} (m : M A) : M (Exc A) := fun t =>
  let '(r, t') := m t in (inr r, t').

(** Send [q]; the node answers [reply]. *)
Definition request {A} (q : rpc_request) (reply : Exc A) : M A := fun t =>
  (reply, t ++ [q]).

(** [w3.eth.call(tx)], [w3.eth.estimate_gas(tx)], [w3.eth.gas_price] *)
Definition eth_call (w3 : Web3) (tx : Tx) : M string :=
  request (EthCall tx) (call_reply w3 tx).

Definition eth_estimate_gas (w3 : Web3) (tx : Tx) : M Z :=
  request (EthEstimateGas tx) (estimate_gas_reply w3 tx).

Definition eth_gas_price (w3 : Web3) : M Z :=
  request EthGasPrice (gas_price_reply w3).

(** ** SimulationEngine *)

Record SimulationEngine := {
  rpc_urls : gmap Z string;
  w3_instances : gmap Z Web3
}.

(** The handles [__init__] stores: one for every chain whose URL is not
    empty and for which [Web3(Web3.HTTPProvider(rpc_url))], here
    [connect], does not raise. *)
Definition handles (connect : string -> Exc Web3) (rpc_urls : gmap Z string)
    : gmap Z Web3 :=
  omap (fun rpc_url =>
          if PyStr.truthy rpc_url then
            match connect rpc_url with
            | inr w3 => Some w3
            | inl _ => None
            end
          else None) rpc_urls.

(** A chain id of the configuration that the log lines of [__init__]
    cannot format: its URL is not empty, so one of the two f-strings is
    evaluated, and when it is the one under [try] that raises, the one in
    the handler raises in turn. *)
Definition unloggable (rpc_urls : gmap Z string) : bool :=
  bool_decide
    (map_Exists (fun chain_id rpc_url =>
                   PyStr.truthy rpc_url = true /\ PyInt.too_long chain_id = true)
       rpc_urls).

(** [__init__]: the engine, or the [ValueError] of a log line. *)
Definition init (connect : string -> Exc Web3) (rpc_urls : gmap Z string)
    : Exc SimulationEngine :=
  if unloggable rpc_urls then inl (ValueError PyInt.str_limit_text)
  else inr {| rpc_urls := rpc_urls; w3_instances := handles connect rpc_urls |}.

(** The dictionary of the three early exits:
    [{"success": False, "error": msg, "chain_id": chain_id}] *)
Definition failure_result (msg : string) (chain_id : Z) : gmap string pyval :=
  <["success" := VBool false]>
    (<["error" := VStr msg]> (<["chain_id" := VInt chain_id]> ∅)).

(** The dictionary returned at the end of the pipeline. *)
Definition full_result (success : bool) (gas_used : Z)
    (gas_cost_eth gas_cost_usd gas_price_gwei : PyFloat.float)
    (error : option string) (asset_changes : list AssetChange)
    (warnings : list string) (chain_id : Z) : gmap string pyval :=
  <["success" := VBool success]>
    (<["gas_used" := VInt gas_used]>
       (<["gas_cost_eth" := VFloat gas_cost_eth]>
          (<["gas_cost_usd" := VFloat gas_cost_usd]>
             (<["gas_price_gwei" := VFloat gas_price_gwei]>
                (<["error" := of_optional_str error]>
                   (<["asset_changes" := VChanges asset_changes]>
                      (<["warnings" := VStrs warnings]>
                         (<["chain_id" := VInt chain_id]>
                            (<["simulation_method" := VStr "eth_call"]> ∅))))))))).

(** [normalize_address], the local function of [simulate_transaction] *)
Definition normalize_address (addr : string) : Exc string :=
  let addr := PyStr.strip addr in
  if negb (PyStr.startswith "0x" addr) || negb (PyStr.len addr =? 42) then
    inl (ValueError ("Invalid address format: " +:+ addr))
  else inr addr.

(** [int(x, 16) if isinstance(x, str) and x.startswith("0x") else int(x)] *)
Definition int_field (x : string) : Exc Z :=
  if PyStr.startswith "0x" x then PyInt.int x 16 else PyInt.int x 10.

(** [_analyze_asset_changes] *)
Definition _analyze_asset_changes (w3 : Web3) (from_addr to_addr : string)
    (value : Z) (data : string) : Exc (list AssetChange) :=
  let changes := [] in
  if 0 <? value then
    match Web3Units.from_wei value Web3Units.ether with
    | inl e => inl e
    | inr eth =>
        inr (changes ++
             [{| asset_type := "NATIVE";
                 change_type := "TRANSFER";
                 change_from := from_addr;
                 change_to := to_addr;
                 amount_wei := value;
                 amount_eth := Web3Units.to_float eth;
                 symbol := "ETH" |}])
    end
  else inr changes.

(** [_get_eth_price]; the integer prices enter the cost as the floats of
    the same value. *)
Definition prices : gmap Z PyFloat.float :=
  list_to_map
    [(1, PyFloat.of_int 3000);
     (10, PyFloat.of_int 3000);
     (56, PyFloat.of_int 600);
     (137, PyFloat.of_int 1);
     (42161, PyFloat.of_int 3000);
     (8453, PyFloat.of_int 3000);
     (43114, PyFloat.of_int 40)].

Definition _get_eth_price (chain_id : Z) : PyFloat.float :=
  default (PyFloat.of_int 3000) (prices !! chain_id).

(** The five warnings of [_generate_warnings]. *)
Definition warning_fail : string :=
  "âš ï¸ Transaction will likely FAIL - Do not execute".

Definition high_gas_text (digits : string) : string :=
  "âš ï¸ Very high gas usage: " +:+ digits +:+ " gas".

Definition warning_high_gas (gas_estimate : Z) : string :=
  high_gas_text (comma_digits gas_estimate).

Definition warning_high_cost (gas_cost_usd : PyFloat.float) : string :=
  "âš ï¸ High gas cost: $" +:+ PyFloat.format_2f gas_cost_usd.

Definition warning_extreme_cost : string :=
  "ğŸš« EXTREMELY HIGH GAS COST - Verify transaction details".

Definition warning_no_transfers : string :=
  "â„¹ï¸ No asset transfers detected".

(** [_generate_warnings]; the only step that can raise is the formatting
    of the gas estimate. *)
Definition _generate_warnings (success : bool) (gas_estimate : Z)
    (gas_cost_usd : PyFloat.float) (asset_changes : list AssetChange)
    : Exc (list string) :=
  let warnings := [] in
  let warnings :=
    if negb success then warnings ++ [warning_fail] else warnings in
  warnings ←
    (if 1000000 <? gas_estimate then
       digits ← format_comma gas_estimate;
       mret (warnings ++ [high_gas_text digits])
     else mret warnings);
  let warnings :=
    if PyFloat.gt_int gas_cost_usd 10 then warnings ++ [warning_high_cost gas_cost_usd]
    else warnings in
  let warnings :=
    if PyFloat.gt_int gas_cost_usd 50 then warnings ++ [warning_extreme_cost]
    else warnings in
  let warnings :=
    if (length asset_changes =? 0)%nat then warnings ++ [warning_no_transfers]
    else warnings in
  mret warnings.

(** ** [simulate_transaction] *)

(** Lines 101-113: the payload. [gas] and [gas_price] are [None] or a
    string; an empty string is as good as [None]. *)
Definition optional_int_field (x : option string) : Exc (option Z) :=
  match x with
  | Some s => if PyStr.truthy s then n ← int_field s; mret (Some n) else mret None
  | None => mret None
  end.

Definition build_tx (from_addr to_addr value data : string)
    (gas gas_price : option string) : Exc Tx :=
  value_int ← int_field value;
  gas_int ← optional_int_field gas;
  gas_price_int ← optional_int_field gas_price;
  mret {| tx_from := from_addr;
          tx_to := to_addr;
          tx_value := value_int;
          tx_data := data;
          tx_gas := gas_int;
          tx_gasPrice := gas_price_int |}.

(** Lines 115-169: the three queries with their fallbacks, the costs, the
    asset changes, the warnings and the result. *)
Definition predict (w3 : Web3) (chain_id : Z) (from_addr to_addr : string)
    (tx : Tx) (data : string) : M (gmap string pyval) :=
  call ← attempt (eth_call w3 tx);
  let '(simulation_success, error_msg) :=
    match call with
    | inr _ => (true, None)
    | inl call_error => (false, Some (exn_str call_error))
    end in
  estimate ← attempt (eth_estimate_gas w3 tx);
  let '(gas_estimate, error_msg) :=
    match estimate with
    | inr gas_estimate => (gas_estimate, error_msg)
    | inl gas_error =>
        (21000,
         if negb (truthy_opt error_msg)
         then Some ("Gas estimation failed: " +:+ exn_str gas_error)
         else error_msg)
    end in
  price ← attempt (eth_gas_price w3);
  let current_gas_price :=
    match price with
    | inr current_gas_price => current_gas_price
    | inl _ => Web3Units.to_wei 20 Web3Units.gwei
    end in
  let gas_cost_wei := gas_estimate * current_gas_price in
  gas_cost_eth ← lift (Web3Units.from_wei gas_cost_wei Web3Units.ether);
  let eth_price_usd := _get_eth_price chain_id in
  let gas_cost_usd := PyFloat.mul (Web3Units.to_float gas_cost_eth) eth_price_usd in
  asset_changes ←
    lift (_analyze_asset_changes w3 from_addr to_addr (tx_value tx) data);
  warnings ←
    lift (_generate_warnings simulation_success gas_estimate gas_cost_usd
            asset_changes);
  gas_price_gwei ← lift (Web3Units.from_wei current_gas_price Web3Units.gwei);
  mret (full_result simulation_success gas_estimate
          (Web3Units.to_float gas_cost_eth)
          (PyFloat.round4 gas_cost_usd)
          (Web3Units.to_float gas_price_gwei)
          error_msg asset_changes warnings chain_id).

(** The body of the outer [try] (lines 75-169). *)
Definition simulate_body (self : SimulationEngine) (chain_id : Z)
    (from_address to_address value data : string)
    (gas gas_price : option string) : M (gmap string pyval) :=
  match w3_instances self !! chain_id with
  | None =>
      chain ← lift (PyInt.str chain_id);
      mret (failure_result ("Chain " +:+ chain +:+ " not supported") chain_id)
  | Some w3 =>
      match (from_addr ← normalize_address from_address;
             to_addr ← normalize_address to_address;
             mret (from_addr, to_addr)) : Exc (string * string) with
      | inl e =>
          mret (failure_result ("Invalid address: " +:+ exn_str e) chain_id)
      | inr (from_addr, to_addr) =>
          tx ← lift (build_tx from_addr to_addr value data gas gas_price);
          predict w3 chain_id from_addr to_addr tx data
      end
  end.

(** [simulate_transaction]: the body under [except Exception as e] (lines
    171-177). *)
Definition simulate_transaction (self : SimulationEngine) (chain_id : Z)
    (from_address to_address value data : string)
    (gas gas_price : option string) : M (gmap string pyval) :=
  outcome ← attempt (simulate_body self chain_id from_address to_address
                       value data gas gas_price);
  match outcome with
  | inr result => mret result
  | inl e => mret (failure_result ("Simulation failed: " +:+ exn_str e) chain_id)
  end.

(** ** Names for what the pipeline computes

    The values of the local variables of lines 115-138 as functions of the
    node's answers, and the predicates used in the statements below. *)

(** [simulation_success] after the [eth_call] step. *)
Definition simulation_success_of (w3 : Web3) (tx : Tx) : bool :=
  match call_reply w3 tx with inr _ => true | inl _ => false end.

(** [error_msg] after the [eth_call] step. *)
Definition call_error_of (w3 : Web3) (tx : Tx) : option string :=
  match call_reply w3 tx with inr _ => None | inl e => Some (exn_str e) end.

(** [error_msg] after the gas estimation step. *)
Definition error_msg_of (w3 : Web3) (tx : Tx) : option string :=
  match estimate_gas_reply w3 tx with
  | inr _ => call_error_of w3 tx
  | inl gas_error =>
      if negb (truthy_opt (call_error_of w3 tx))
      then Some ("Gas estimation failed: " +:+ exn_str gas_error)
      else call_error_of w3 tx
  end.

(** [gas_estimate] *)
Definition gas_estimate_of (w3 : Web3) (tx : Tx) : Z :=
  match estimate_gas_reply w3 tx with inr g => g | inl _ => 21000 end.

(** [current_gas_price] *)
Definition current_gas_price_of (w3 : Web3) : Z :=
  match gas_price_reply w3 with
  | inr p => p
  | inl _ => Web3Units.to_wei 20 Web3Units.gwei
  end.

(** [gas_cost_usd] before it is rounded for the result. *)
Definition gas_cost_usd_of (chain_id : Z) (gas_cost_eth : Web3Units.number)
    : PyFloat.float :=
  PyFloat.mul (Web3Units.to_float gas_cost_eth) (_get_eth_price chain_id).

(** The three requests of one run of the pipeline. *)
Definition requests_of (tx : Tx) : trace :=
  [EthCall tx; EthEstimateGas tx; EthGasPrice].

Definition payload (q : rpc_request) : option Tx :=
  match q with
  | EthCall tx | EthEstimateGas tx => Some tx
  | EthGasPrice => None
  end.

(** The shape check on an address as given: 42 characters behind [0x]. *)
Definition address_shape (addr : string) : bool :=
  PyStr.startswith "0x" addr && (PyStr.len addr =? 42).

(** The literal handed to [int] starts, after spaces, with a minus sign. *)
Definition leading_minus (value : string) : bool :=
  match PyInt.skip_spaces (map PyInt.to_ascii (PyStr.chars value)) with
  | "-"%char :: _ => true
  | _ => false
  end.

(** The entry [_analyze_asset_changes] emits for a native transfer. *)
Definition native_transfer (from_addr to_addr : string) (value : Z)
    (eth : Web3Units.number) : AssetChange :=
  {| asset_type := "NATIVE";
     change_type := "TRANSFER";
     change_from := from_addr;
     change_to := to_addr;
     amount_wei := value;
     amount_eth := Web3Units.to_float eth;
     symbol := "ETH" |}.

(** A list with [x] when the test [b] holds: one conditional [append]. *)
Definition pick {A} (b : bool) (x : A) : list A := if b then [x] else [].

(** The five warnings in the order of the five tests. *)
Definition all_warnings (gas_estimate : Z) (gas_cost_usd : PyFloat.float)
    : list string :=
  [warning_fail; warning_high_gas gas_estimate; warning_high_cost gas_cost_usd;
   warning_extreme_cost; warning_no_transfers].

(** The conversions and the formatting that follow the three queries
    all go through: the gas cost and the gas price are in the range of
    [from_wei], the value is at most [MAX_WEI] (it is converted only when
    it is above 0), and the gas estimate is below [10^4300] (it is
    formatted only when it is above 1,000,000). *)
Definition convertible (w3 : Web3) (tx : Tx) : bool :=
  let gas_cost_wei := gas_estimate_of w3 tx * current_gas_price_of w3 in
  (0 <=? gas_cost_wei) && (gas_cost_wei <=? Web3Units.MAX_WEI)
  && (tx_value tx <=? Web3Units.MAX_WEI)
  && (gas_estimate_of w3 tx <? PyInt.str_bound)
  && (0 <=? current_gas_price_of w3)
  && (current_gas_price_of w3 <=? Web3Units.MAX_WEI).

Definition failure_keys : gset string := {["success"; "error"; "chain_id"]}.

Definition full_keys : gset string :=
  {["success"; "gas_used"; "gas_cost_eth"; "gas_cost_usd"; "gas_price_gwei";
    "error"; "asset_changes"; "warnings"; "chain_id"; "simulation_method"]}.

(** The ways a call of [simulate_transaction] can end, with the result and
    the trace of each. *)
Inductive ending (self : SimulationEngine) (chain_id : Z)
    (from_address to_address value data : string)
    (gas gas_price : option string) (t : trace)
    : gmap string pyval -> trace -> Prop :=
| unsupported_chain chain :
    w3_instances self !! chain_id = None ->
    PyInt.str chain_id = inr chain ->
    ending self chain_id from_address to_address value data gas gas_price t
      (failure_result ("Chain " +:+ chain +:+ " not supported") chain_id) t
| unformattable_chain e :
    w3_instances self !! chain_id = None ->
    PyInt.str chain_id = inl e ->
    ending self chain_id from_address to_address value data gas gas_price t
      (failure_result ("Simulation failed: " +:+ exn_str e) chain_id) t
| invalid_from w3 e :
    w3_instances self !! chain_id = Some w3 ->
    normalize_address from_address = inl e ->
    ending self chain_id from_address to_address value data gas gas_price t
      (failure_result ("Invalid address: " +:+ exn_str e) chain_id) t
| invalid_to w3 from_addr e :
    w3_instances self !! chain_id = Some w3 ->
    normalize_address from_address = inr from_addr ->
    normalize_address to_address = inl e ->
    ending self chain_id from_address to_address value data gas gas_price t
      (failure_result ("Invalid address: " +:+ exn_str e) chain_id) t
| invalid_number w3 from_addr to_addr e :
    w3_instances self !! chain_id = Some w3 ->
    normalize_address from_address = inr from_addr ->
    normalize_address to_address = inr to_addr ->
    build_tx from_addr to_addr value data gas gas_price = inl e ->
    ending self chain_id from_address to_address value data gas gas_price t
      (failure_result ("Simulation failed: " +:+ exn_str e) chain_id) t
| conversion_raised w3 from_addr to_addr tx e :
    w3_instances self !! chain_id = Some w3 ->
    normalize_address from_address = inr from_addr ->
    normalize_address to_address = inr to_addr ->
    build_tx from_addr to_addr value data gas gas_price = inr tx ->
    fst (predict w3 chain_id from_addr to_addr tx data t) = inl e ->
    ending self chain_id from_address to_address value data gas gas_price t
      (failure_result ("Simulation failed: " +:+ exn_str e) chain_id)
      (t ++ requests_of tx)
| completed w3 from_addr to_addr tx gas_cost_eth asset_changes warnings
    gas_price_gwei :
    w3_instances self !! chain_id = Some w3 ->
    normalize_address from_address = inr from_addr ->
    normalize_address to_address = inr to_addr ->
    build_tx from_addr to_addr value data gas gas_price = inr tx ->
    Web3Units.from_wei (gas_estimate_of w3 tx * current_gas_price_of w3)
      Web3Units.ether = inr gas_cost_eth ->
    _analyze_asset_changes w3 from_addr to_addr (tx_value tx) data
      = inr asset_changes ->
    _generate_warnings (simulation_success_of w3 tx) (gas_estimate_of w3 tx)
      (gas_cost_usd_of chain_id gas_cost_eth) asset_changes = inr warnings ->
    Web3Units.from_wei (current_gas_price_of w3) Web3Units.gwei
      = inr gas_price_gwei ->
    ending self chain_id from_address to_address value data gas gas_price t
      (full_result (simulation_success_of w3 tx) (gas_estimate_of w3 tx)
         (Web3Units.to_float gas_cost_eth)
         (PyFloat.round4 (gas_cost_usd_of chain_id gas_cost_eth))
         (Web3Units.to_float gas_price_gwei)
         (error_msg_of w3 tx) asset_changes warnings chain_id)
      (t ++ requests_of tx).


(** ** Concrete engines used in examples *)

Module Examples.

Definition alice : string := "0x742d35Cc6634C0532925a3b844Bc9e7595f0bEb0".
Definition usdc : string := "0xA0b86991c6218b36c1d19D4a2e9Eb0cE3606eB48".

(** A node that answers every query. *)
Definition healthy (gas price : Z) : Web3 :=
  {| call_reply := fun _ => inr "0x";
     estimate_gas_reply := fun _ => inr gas;
     gas_price_reply := inr price |}.

(** A node whose [eth_call] and [estimate_gas] fail with the given texts. *)
Definition failing (call_text gas_text : string) (price : Z) : Web3 :=
  {| call_reply := fun _ => inl (Exn "Exception" call_text);
     estimate_gas_reply := fun _ => inl (Exn "Exception" gas_text);
     gas_price_reply := inr price |}.

(** An engine with one node behind every configured URL, as [__init__]
    leaves it. *)
Definition engine (w3 : Web3) (urls : list (Z * string)) : SimulationEngine :=
  {| rpc_urls := list_to_map urls;
     w3_instances := handles (fun _ => inr w3) (list_to_map urls) |}.

Definition mainnet (w3 : Web3) : SimulationEngine :=
  engine w3 [(1, "https://eth.llamarpc.com"); (137, "https://polygon-rpc.com")].

Definition transfer_tx (value : Z) : Tx :=
  {| tx_from := alice; tx_to := usdc; tx_value := value; tx_data := "0x";
     tx_gas := None; tx_gasPrice := None |}.

End Examples.

(** ** Further names used in the statements about the engine *)

(** The node [w3] with the gas price query answered by [price]. *)
Definition answering_gas_price (w3 : Web3) (price : Z) : Web3 :=
  {| call_reply := call_reply w3;
     estimate_gas_reply := estimate_gas_reply w3;
     gas_price_reply := inr price |}.

(** What [build_tx] stores for an optional field given as [x]. *)
Definition optional_field_stored (x : option string) (stored : option Z) : Prop :=
  match x with
  | None | Some EmptyString => stored = None
  | Some s => exists n, int_field s = inr n /\ stored = Some n
  end.

(** The [ValueError] that stops the construction of the payload: that of
    the first of [value], [gas] and [gas_price], in the order lines 105-113
    read them, that [int] rejects. A [gas] or [gas_price] that is [None] or
    empty is not read. *)
Definition rejected_number (value : string) (gas gas_price : option string)
    : option exn :=
  match int_field value with
  | inl e => Some e
  | inr _ =>
      match optional_int_field gas with
      | inl e => Some e
      | inr _ =>
          match optional_int_field gas_price with
          | inl e => Some e
          | inr _ => None
          end
      end
  end.

(** Further nodes used in examples. *)
Module Nodes.

(** A node that answers the call and the gas estimation and fails on the
    gas price. *)
Definition price_down : Web3 :=
  {| call_reply := fun _ => inr "0x";
     estimate_gas_reply := fun _ => inr 21000;
     gas_price_reply := inl (Exn "ConnectionError" "timed out") |}.

(** A node on which only the gas estimation fails. *)
Definition estimate_down : Web3 :=
  {| call_reply := fun _ => inr "0x";
     estimate_gas_reply := fun _ => inl (Exn "Exception" "out of gas");
     gas_price_reply := inr 1000000000 |}.

End Nodes.

(** ** Characters of a string

    Names for the shape of the list [PyStr.chars] returns, used in the
    facts about [strip]. *)

(** Continuation bytes only. *)
Fixpoint all_continuation (s : string) : bool :=
  match s with
  | EmptyString => true
  | String c rest => PyStr.is_continuation c && all_continuation rest
  end.

(** A list of characters as [chars] produces them: each is a byte followed
    by continuation bytes, and each one after the first starts with a byte
    that is not a continuation. *)
Definition is_char (ch : string) : bool :=
  match ch with
  | EmptyString => false
  | String _ rest => all_continuation rest
  end.

Definition starts_char (ch : string) : bool :=
  is_char ch && negb (PyStr.continues ch).

Definition shaped (l : list string) : Prop :=
  match l with
  | [] => True
  | ch :: l' => is_char ch = true /\ forallb starts_char l' = true
  end.

(** The characters left by [strip]. *)
Definition stripped_chars (s : string) : list string :=
  rev (PyStr.lstrip_chars (rev (PyStr.lstrip_chars (PyStr.chars s)))).

(** * The service (src/src/main.py)

    The chain configuration read from the environment, the list of
    supported chains, and the handler of
    [POST /entrypoints/transaction-simulator/invoke]. *)

Module Main.

(** [os.getenv(name, fallback)] on the environment [environ]. *)
Definition getenv (environ : gmap string string) (name fallback : string)
    : string :=
  default fallback (environ !! name).

(** [RPC_URLS], in the order of the dictionary literal. *)
Definition RPC_URLS (environ : gmap string string) : list (Z * string) :=
  [(1, getenv environ "ETHEREUM_RPC_URL" "https://eth.llamarpc.com");
   (56, getenv environ "BSC_RPC_URL" "https://bsc-dataseed1.binance.org");
   (137, getenv environ "POLYGON_RPC_URL" "https://polygon-rpc.com");
   (42161, getenv environ "ARBITRUM_RPC_URL" "https://arb1.arbitrum.io/rpc");
   (10, getenv environ "OPTIMISM_RPC_URL" "https://mainnet.optimism.io");
   (8453, getenv environ "BASE_RPC_URL" "https://mainnet.base.org");
   (43114, getenv environ "AVALANCHE_RPC_URL"
             "https://api.avax.network/ext/bc/C/rpc")].


(** [supported_chains = [chain_id for chain_id, url in RPC_URLS.items() if url]] *)
Definition supported_chains (environ : gmap string string) : list Z :=
  omap (fun '(chain_id, url) => if PyStr.truthy url then Some chain_id else None)
    (RPC_URLS environ).

(** [SimulationRequest] *)
Record SimulationRequest := {
  chain_id : Z;
  from_address : string;
  to_address : string;
  value : string;
  data : string;
  gas : option string;
  gas_price : option string
}.

(** The fields of [SimulationResponse] with their defaults; a field
    without default is required. *)
Definition response_fields : list (string * option pyval) :=
  [("success", None);
   ("gas_used", Some (VInt 0));
   ("gas_cost_eth", Some (VFloat (PyFloat.of_int 0)));
   ("gas_cost_usd", Some (VFloat (PyFloat.of_int 0)));
   ("gas_price_gwei", Some (VFloat (PyFloat.of_int 0)));
   ("error", Some VNone);
   ("asset_changes", Some (VChanges []));
   ("warnings", Some (VStrs []));
   ("chain_id", None);
   ("simulation_method", Some (VStr "unknown"));
   ("timestamp", None)].

(** A value that already has the type its field declares. *)
Definition well_typed (name : string) (v : pyval) : bool :=
  match v with
  | VBool _ => String.eqb name "success"
  | VInt _ => String.eqb name "gas_used" || String.eqb name "chain_id"
  | VFloat _ =>
      String.eqb name "gas_cost_eth" || String.eqb name "gas_cost_usd"
      || String.eqb name "gas_price_gwei"
  | VNone => String.eqb name "error"
  | VStr _ =>
      String.eqb name "error" || String.eqb name "simulation_method"
      || String.eqb name "timestamp"
  | VChanges _ => String.eqb name "asset_changes"
  | VStrs _ => String.eqb name "warnings"
  end.

(** The fields of a model built from keyword arguments: a given value goes
    through the validation of its field, a missing one takes the default;
    the names of the fields that fail are collected. [validate] is the
    validation pydantic applies to a given value: the value it stores, or
    nothing when it rejects it. *)
Fixpoint fill (validate : string -> pyval -> option pyval)
    (fields : list (string * option pyval)) (kwargs : gmap string pyval)
    : list string * gmap string pyval :=
  match fields with
  | [] => ([], ∅)
  | (name, fallback) :: rest =>
      let '(errors, model) := fill validate rest kwargs in
      let outcome :=
        match kwargs !! name with
        | Some v => validate name v
        | None => fallback
        end in
      match outcome with
      | Some v => (errors, <[name := v]> model)
      | None => (name :: errors, model)
      end
  end.

(** [SimulationResponse] built from the keyword arguments [kwargs];
    [validation_error] is the exception pydantic raises for the fields that
    failed. *)
Definition SimulationResponse (validate : string -> pyval -> option pyval)
    (validation_error : list string -> exn) (kwargs : gmap string pyval)
    : Exc (gmap string pyval) :=
  match fill validate response_fields kwargs with
  | ([], model) => inr model
  | (errors, _) => inl (validation_error errors)
  end.

(** What the handler hands back: the response model, or
    [HTTPException(status_code, detail)]. *)
Inductive reply :=
| Returned (response : gmap string pyval)
| HTTPException (status_code : Z) (detail : string).

(** The handler [simulate_transaction(request)]; [now] is
    [datetime.utcnow().isoformat()]. The first step under [try] is the log
    line, whose f-string formats the chain id and the two addresses. *)
Definition simulate_transaction_handler
    (validate : string -> pyval -> option pyval)
    (validation_error : list string -> exn) (now : string)
    (engine : SimulationEngine) (request : SimulationRequest) : M reply :=
  outcome ←
    attempt
      (_ ← lift (PyInt.str (chain_id request));
       result ← simulate_transaction engine (chain_id request)
                  (from_address request) (to_address request) (value request)
                  (data request) (gas request) (gas_price request);
       let result := <["timestamp" := VStr (now +:+ "Z")]> result in
       lift (SimulationResponse validate validation_error result));
  match outcome with
  | inr response => mret (Returned response)
  | inl e => mret (HTTPException 500 ("Simulation failed: " +:+ exn_str e))
  end.

(** The defaults of the response, by field. *)
Definition response_defaults : gmap string pyval :=
  list_to_map
    (omap (fun '(name, fallback) => pair name <$> fallback) response_fields).

(** A validator that stores well-typed values as they are and rejects the
    rest. *)
Definition strict (name : string) (v : pyval) : option pyval :=
  if well_typed name v then Some v else None.

End Main.

(** ** Evaluation of the library models on sample inputs *)

Example int_hex_989680 : PyInt.int "0x989680" 16 = inr 10000000.
Proof. reflexivity. Qed.

Example int_decimal_signed : PyInt.int " -5 " 10 = inr (-5).
Proof. reflexivity. Qed.

Example int_hex_underscore : PyInt.int "0x_ff_ff" 16 = inr 65535.
Proof. reflexivity. Qed.

Example int_rejects_bare_prefix :
  PyInt.int "0x" 16 = inl (ValueError "invalid literal for int() with base 16: '0x'").
Proof. reflexivity. Qed.

Example int_rejects_prefix_in_base_10 :
  PyInt.int "0X10" 10 = inl (ValueError "invalid literal for int() with base 10: '0X10'").
Proof. reflexivity. Qed.

Example int_arabic_indic_digit : PyInt.int "٣" 10 = inr 3.
Proof. reflexivity. Qed.

(** U+00AD, the soft hyphen, is not printable. *)
Example int_rejects_unprintable :
  PyInt.int (PyStr.encode_utf8 173) 10
  = inl (ValueError "invalid literal for int() with base 10: '\xad'").
Proof. reflexivity. Qed.

Example str_chain : PyInt.str 8453 = inr "8453".
Proof. reflexivity. Qed.

Example str_limit :
  PyInt.str PyInt.str_bound
  = inl (ValueError
           ("Exceeds the limit (4300 digits) for integer string conversion"
              +:+ "; use sys.set_int_max_str_digits() to increase the limit")).
Proof. vm_compute. reflexivity. Qed.

Example format_comma_limit :
  format_comma PyInt.str_bound = inl (ValueError PyInt.str_limit_text).
Proof. vm_compute. reflexivity. Qed.

Example strip_spaces : PyStr.strip "  0x12 " = "0x12".
Proof. reflexivity. Qed.

Example format_comma_million : format_comma 1000001 = inr "1,000,001".
Proof. reflexivity. Qed.

Example format_comma_small : format_comma 21000 = inr "21,000".
Proof. reflexivity. Qed.

Example format_2f_example :
  PyFloat.format_2f (PyFloat.of_quot 10000011 1000000) = "10.00".
Proof. reflexivity. Qed.

Example round4_example :
  PyFloat.round4 (PyFloat.of_quot 10000011 1000000) = PyFloat.of_int 10.
Proof. reflexivity. Qed.

Example round4_ties_to_even :
  PyFloat.round4 (PyFloat.of_quot 3 32) = PyFloat.of_quot 938 10000.
Proof. reflexivity. Qed.
(** ** Basic facts *)

Section ResultFacts.
Variables (msg : string) (chain_id : Z).

Lemma failure_result_success :
  failure_result msg chain_id !! "success" = Some (VBool false).
Proof. reflexivity. Qed.


Lemma failure_result_chain_id :
  failure_result msg chain_id !! "chain_id" = Some (VInt chain_id).
Proof. reflexivity. Qed.

Lemma failure_result_dom : dom (failure_result msg chain_id) = failure_keys.
Proof.
  unfold failure_result, failure_keys.
  rewrite !dom_insert_L, dom_empty_L. set_solver.
Qed.
End ResultFacts.

Section FullResultFacts.
Variables (success : bool) (gas_used : Z)
  (gas_cost_eth gas_cost_usd gas_price_gwei : PyFloat.float)
  (error : option string) (asset_changes : list AssetChange)
  (warnings : list string) (chain_id : Z).

Let result := full_result success gas_used gas_cost_eth gas_cost_usd
                gas_price_gwei error asset_changes warnings chain_id.

Lemma full_result_success : result !! "success" = Some (VBool success).
Proof. reflexivity. Qed.

Lemma full_result_gas_used : result !! "gas_used" = Some (VInt gas_used).
Proof. reflexivity. Qed.

Lemma full_result_gas_cost_usd :
  result !! "gas_cost_usd" = Some (VFloat gas_cost_usd).
Proof. reflexivity. Qed.

Lemma full_result_error : result !! "error" = Some (of_optional_str error).
Proof. reflexivity. Qed.

Lemma full_result_asset_changes :
  result !! "asset_changes" = Some (VChanges asset_changes).
Proof. reflexivity. Qed.

Lemma full_result_warnings : result !! "warnings" = Some (VStrs warnings).
Proof. reflexivity. Qed.

Lemma full_result_dom : dom result = full_keys.
Proof.
  unfold result, full_result, full_keys.
  rewrite !dom_insert_L, dom_empty_L. set_solver.
Qed.
End FullResultFacts.

(** [from_wei] succeeds exactly on amounts between 0 and [MAX_WEI]. *)
Lemma from_wei_in_range n unit :
  0 <= n <= Web3Units.MAX_WEI ->
  Web3Units.from_wei n unit =
    inr (if n =? 0 then Web3Units.Int 0 else Web3Units.Decimal n unit).
Proof.
  intros [Hlo Hhi]. unfold Web3Units.from_wei, Web3Units.MIN_WEI.
  destruct (n =? 0); [reflexivity |].
  destruct (n <? 0) eqn:E1; [apply Z.ltb_lt in E1; lia |].
  destruct (Web3Units.MAX_WEI <? n) eqn:E2; [apply Z.ltb_lt in E2; lia |].
  reflexivity.
Qed.

Lemma from_wei_inr n unit x :
  Web3Units.from_wei n unit = inr x ->
  0 <= n <= Web3Units.MAX_WEI /\
  x = (if n =? 0 then Web3Units.Int 0 else Web3Units.Decimal n unit).
Proof.
  unfold Web3Units.from_wei, Web3Units.MIN_WEI.
  destruct (n =? 0) eqn:E0.
  - apply Z.eqb_eq in E0. subst n. intros [= <-].
    split; [| reflexivity]. split; [lia | discriminate].
  - destruct (n <? 0) eqn:E1; [discriminate |].
    destruct (Web3Units.MAX_WEI <? n) eqn:E2; [discriminate |].
    cbn [orb]. intros [= <-].
    apply Z.ltb_ge in E1, E2. split; [lia | reflexivity].
Qed.

Lemma from_wei_out_of_range n unit :
  Web3Units.MAX_WEI < n ->
  Web3Units.from_wei n unit = inl (ValueError Web3Units.range_text).
Proof.
  intros H. unfold Web3Units.from_wei, Web3Units.MIN_WEI.
  assert (0 < Web3Units.MAX_WEI) by reflexivity.
  destruct (n =? 0) eqn:E0; [apply Z.eqb_eq in E0; lia |].
  apply Z.ltb_lt in H. rewrite H, orb_true_r. reflexivity.
Qed.

Lemma from_wei_negative n unit :
  n < 0 ->
  Web3Units.from_wei n unit = inl (ValueError Web3Units.range_text).
Proof.
  intros H. unfold Web3Units.from_wei, Web3Units.MIN_WEI.
  destruct (n =? 0) eqn:E0; [apply Z.eqb_eq in E0; lia |].
  apply Z.ltb_lt in H. rewrite H. reflexivity.
Qed.

(** Integers up to [MAX_WEI] are far below the limit of [str]. *)
Lemma MAX_WEI_lt_str_bound : Web3Units.MAX_WEI < PyInt.str_bound.
Proof. apply Z.ltb_lt. vm_compute. reflexivity. Qed.

Lemma too_long_true n : PyInt.too_long n = true <-> PyInt.str_bound <= Z.abs n.
Proof. unfold PyInt.too_long. apply Z.leb_le. Qed.

Lemma too_long_false n : PyInt.too_long n = false <-> Z.abs n < PyInt.str_bound.
Proof. unfold PyInt.too_long. apply Z.leb_gt. Qed.

Lemma str_inr n : Z.abs n < PyInt.str_bound -> PyInt.str n = inr (pretty n).
Proof. intros H. unfold PyInt.str. apply too_long_false in H. by rewrite H. Qed.

Lemma str_inl n :
  PyInt.str_bound <= Z.abs n -> PyInt.str n = inl (ValueError PyInt.str_limit_text).
Proof. intros H. unfold PyInt.str. apply too_long_true in H. by rewrite H. Qed.

(** The formatting of the gas estimate is the only step of
    [_generate_warnings] that can raise; when it does not, the warnings are
    those of the five tests, in this order. *)
Lemma generate_warnings_spec success gas_estimate gas_cost_usd asset_changes :
  _generate_warnings success gas_estimate gas_cost_usd asset_changes =
  if (1000000 <? gas_estimate) && PyInt.too_long gas_estimate
  then inl (ValueError PyInt.str_limit_text)
  else inr (pick (negb success) warning_fail
            ++ pick (1000000 <? gas_estimate) (warning_high_gas gas_estimate)
            ++ pick (PyFloat.gt_int gas_cost_usd 10) (warning_high_cost gas_cost_usd)
            ++ pick (PyFloat.gt_int gas_cost_usd 50) warning_extreme_cost
            ++ pick (length asset_changes =? 0)%nat warning_no_transfers).
Proof.
  unfold _generate_warnings, format_comma, warning_high_gas, pick.
  destruct (1000000 <? gas_estimate), (PyInt.too_long gas_estimate);
    cbn [andb mbind Exc_bind mret Exc_ret]; [reflexivity | | |];
    destruct (negb success), (PyFloat.gt_int gas_cost_usd 10),
      (PyFloat.gt_int gas_cost_usd 50), (length asset_changes =? 0)%nat;
    reflexivity.
Qed.

(** The warnings are produced whenever the gas estimate is below the
    limit of [str]. *)
Lemma generate_warnings_inr success gas_estimate gas_cost_usd asset_changes :
  gas_estimate < PyInt.str_bound ->
  _generate_warnings success gas_estimate gas_cost_usd asset_changes =
  inr (pick (negb success) warning_fail
       ++ pick (1000000 <? gas_estimate) (warning_high_gas gas_estimate)
       ++ pick (PyFloat.gt_int gas_cost_usd 10) (warning_high_cost gas_cost_usd)
       ++ pick (PyFloat.gt_int gas_cost_usd 50) warning_extreme_cost
       ++ pick (length asset_changes =? 0)%nat warning_no_transfers).
Proof.
  intros H. rewrite generate_warnings_spec.
  destruct (1000000 <? gas_estimate) eqn:E; [| reflexivity].
  apply Z.ltb_lt in E.
  assert (PyInt.too_long gas_estimate = false) as ->; [| reflexivity].
  apply too_long_false. lia.
Qed.

(** When [_generate_warnings] returns, the gas estimate could be formatted
    if it had to be, and the warnings are those of the five tests. *)
Lemma generate_warnings_returned success gas_estimate gas_cost_usd asset_changes
    warnings :
  _generate_warnings success gas_estimate gas_cost_usd asset_changes
  = inr warnings ->
  warnings =
    pick (negb success) warning_fail
    ++ pick (1000000 <? gas_estimate) (warning_high_gas gas_estimate)
    ++ pick (PyFloat.gt_int gas_cost_usd 10) (warning_high_cost gas_cost_usd)
    ++ pick (PyFloat.gt_int gas_cost_usd 50) warning_extreme_cost
    ++ pick (length asset_changes =? 0)%nat warning_no_transfers.
Proof.
  rewrite generate_warnings_spec.
  destruct ((1000000 <? gas_estimate) && PyInt.too_long gas_estimate);
    congruence.
Qed.

(** When it raises, the gas estimate is [10^4300] or more. *)
Lemma generate_warnings_raised success gas_estimate gas_cost_usd asset_changes e :
  _generate_warnings success gas_estimate gas_cost_usd asset_changes = inl e ->
  e = ValueError PyInt.str_limit_text /\ PyInt.str_bound <= gas_estimate.
Proof.
  rewrite generate_warnings_spec.
  destruct (1000000 <? gas_estimate) eqn:E1; [| discriminate].
  destruct (PyInt.too_long gas_estimate) eqn:E2; [| discriminate].
  cbn [andb]. intros [= <-]. split; [reflexivity |].
  apply Z.ltb_lt in E1. apply too_long_true in E2. lia.
Qed.

(** The pipeline of lines 115-169: the three requests are always sent, in
    this order, and the result is the full dictionary unless a conversion
    raises. *)
Lemma predict_spec w3 chain_id from_addr to_addr tx data t :
  predict w3 chain_id from_addr to_addr tx data t =
  (match
     Web3Units.from_wei (gas_estimate_of w3 tx * current_gas_price_of w3)
       Web3Units.ether with
   | inl e => inl e
   | inr gas_cost_eth =>
       match _analyze_asset_changes w3 from_addr to_addr (tx_value tx) data with
       | inl e => inl e
       | inr asset_changes =>
           match
             _generate_warnings (simulation_success_of w3 tx)
               (gas_estimate_of w3 tx)
               (gas_cost_usd_of chain_id gas_cost_eth) asset_changes with
           | inl e => inl e
           | inr warnings =>
               match
                 Web3Units.from_wei (current_gas_price_of w3) Web3Units.gwei with
               | inl e => inl e
               | inr gas_price_gwei =>
                   inr (full_result (simulation_success_of w3 tx)
                          (gas_estimate_of w3 tx)
                          (Web3Units.to_float gas_cost_eth)
                          (PyFloat.round4 (gas_cost_usd_of chain_id gas_cost_eth))
                          (Web3Units.to_float gas_price_gwei)
                          (error_msg_of w3 tx) asset_changes warnings chain_id)
               end
           end
       end
   end, t ++ requests_of tx).
Proof.
  unfold predict, gas_estimate_of, current_gas_price_of, simulation_success_of,
    error_msg_of, call_error_of, gas_cost_usd_of, requests_of.
  unfold mbind, M_bind, attempt, eth_call, eth_estimate_gas, eth_gas_price,
    request, lift, mret, M_ret.
  replace (t ++ [EthCall tx; EthEstimateGas tx; EthGasPrice])
    with (((t ++ [EthCall tx]) ++ [EthEstimateGas tx]) ++ [EthGasPrice])
    by (rewrite <- !app_assoc; reflexivity).
  destruct (call_reply w3 tx), (estimate_gas_reply w3 tx), (gas_price_reply w3);
    cbv beta iota zeta;
    repeat match goal with
      | |- context [match ?x with inl _ => _ | inr _ => _ end] =>
          destruct x; cbv beta iota zeta
      end; reflexivity.
Qed.

Lemma simulate_transaction_ending self chain_id from_address to_address value
    data gas gas_price t :
  exists result t',
    simulate_transaction self chain_id from_address to_address value data
      gas gas_price t = (inr result, t') /\
    ending self chain_id from_address to_address value data gas gas_price t
      result t'.
Proof.
  unfold simulate_transaction, simulate_body.
  unfold mbind at 1. unfold M_bind, attempt.
  destruct (w3_instances self !! chain_id) as [w3 |] eqn:Hw3.
  2: { unfold mbind, M_bind, lift.
       destruct (PyInt.str chain_id) as [e | chain] eqn:Hstr;
         eexists _, _; (split; [reflexivity |]).
       - by apply unformattable_chain.
       - by apply unsupported_chain. }
  destruct (normalize_address from_address) as [e | from_addr] eqn:Hfrom.
  { eexists _, _. split; [reflexivity |]. by eapply invalid_from. }
  destruct (normalize_address to_address) as [e | to_addr] eqn:Hto.
  { eexists _, _. split; [reflexivity |]. by eapply invalid_to. }
  cbn [mbind Exc_bind mret Exc_ret].
  unfold mbind, M_bind, lift.
  destruct (build_tx from_addr to_addr value data gas gas_price) as [e | tx] eqn:Htx.
  { eexists _, _. split; [reflexivity |]. by eapply invalid_number. }
  pose proof (predict_spec w3 chain_id from_addr to_addr tx data t) as Hp.
  destruct (predict w3 chain_id from_addr to_addr tx data t) as [[e | result] t'] eqn:Hrun.
  - eexists _, _. split; [reflexivity |].
    injection Hp as _ ->. eapply conversion_raised; eauto. by rewrite Hrun.
  - eexists _, _. split; [reflexivity |].
    injection Hp as Hres ->.
    destruct (Web3Units.from_wei _ Web3Units.ether) eqn:H1; [discriminate |].
    destruct (_analyze_asset_changes _ _ _ _ _) eqn:H2; [discriminate |].
    destruct (_generate_warnings _ _ _ _) eqn:H4; [discriminate |].
    destruct (Web3Units.from_wei _ Web3Units.gwei) eqn:H3; [discriminate |].
    injection Hres as ->. by eapply completed.
Qed.

(** ** Facts about floats *)

(** Above 50 is above 10, for every float. *)
Lemma gt_int_50_10 x : PyFloat.gt_int x 50 = true -> PyFloat.gt_int x 10 = true.
Proof.
  unfold PyFloat.gt_int.
  change (PyFloat.of_int 50) with (S754_finite false 7036874417766400 (-47)).
  change (PyFloat.of_int 10) with (S754_finite false 5629499534213120 (-49)).
  unfold SFltb, SFcompare.
  destruct x as [s | s | | s m e]; try destruct s; try discriminate; try reflexivity.
  destruct (Z.compare_spec (-47) e); destruct (Z.compare_spec (-49) e); try lia; try discriminate; try reflexivity.
Qed.

(** Rounding a non-negative quotient never gives a negative float or a NaN. *)
Lemma shr_1_nonneg mrs : 0 <= shr_m mrs -> 0 <= shr_m (shr_1 mrs).
Proof.
  destruct mrs as [m r s]. simpl. destruct m as [| p | p]; simpl; try lia.
  - destruct p; simpl; lia.
Qed.

Lemma iter_pos_shr_1_nonneg p : forall mrs, 0 <= shr_m mrs -> 0 <= shr_m (SpecFloat.iter_pos shr_1 p mrs).
Proof.
  induction p; intros mrs H; simpl; auto using shr_1_nonneg.
Qed.

Lemma shr_nonneg mrs e n : 0 <= shr_m mrs -> 0 <= shr_m (fst (shr mrs e n)).
Proof.
  intros H. unfold shr. destruct n; simpl; auto using iter_pos_shr_1_nonneg.
Qed.

Lemma shr_fexp_nonneg prec emax m e l : 0 <= m -> 0 <= shr_m (fst (shr_fexp prec emax m e l)).
Proof.
  intros H. unfold shr_fexp. apply shr_nonneg. destruct l as [| []]; simpl; exact H.
Qed.

Lemma round_nearest_even_nonneg m l : 0 <= m -> 0 <= round_nearest_even m l.
Proof.
  intros H. unfold round_nearest_even. destruct l as [| []]; try lia. destruct (Z.even m); lia.
Qed.

Lemma binary_round_aux_nonneg prec emax m e l :
  0 <= m -> PyFloat.nonneg (binary_round_aux prec emax false m e l) = true.
Proof.
  intros H. unfold binary_round_aux.
  pose proof (shr_fexp_nonneg prec emax m e l H) as H1.
  destruct (shr_fexp prec emax m e l) as [mrs' e'] eqn:E1. simpl in H1.
  pose proof (shr_fexp_nonneg prec emax (round_nearest_even (shr_m mrs') (loc_of_shr_record mrs')) e' loc_Exact
    (round_nearest_even_nonneg _ _ H1)) as H2.
  destruct (shr_fexp prec emax (round_nearest_even _ _) e' loc_Exact) as [mrs'' e''] eqn:E2. simpl in H2.
  destruct (shr_m mrs'') as [| p | p]; try reflexivity; try lia.
  destruct (e'' <=? emax - prec); reflexivity.
Qed.

Lemma of_quot_nonneg n d : 0 <= n -> 0 < d -> PyFloat.nonneg (PyFloat.of_quot n d) = true.
Proof.
  intros Hn Hd. destruct n as [| p | p]; [reflexivity | | lia].
  destruct d as [| q | q]; try lia.
  unfold PyFloat.of_quot, SFdiv.
  destruct (SFdiv_core_binary _ _ _ _ _ _) as [[mz ez] lz] eqn:E.
  apply binary_round_aux_nonneg.
  unfold SFdiv_core_binary in E.
  set (m' := match _ with Zpos _ => Z.shiftl _ _ | Z0 => _ | Zneg _ => 0 end) in E.
  assert (0 <= m') as Hm'.
  { subst m'. match goal with |- 0 <= match ?s with _ => _ end => destruct s end; try lia.
    apply Z.shiftl_nonneg. lia. }
  pose proof (Z_div_mod m' (Zpos q) ltac:(lia)) as Hdm.
  destruct (Z.div_eucl m' (Zpos q)) as [q0 r0]. injection E as <- _ _.
  destruct Hdm as [Heq Hr]. nia.
Qed.

(** ** Facts about [int] *)

Lemma digit_value_nonneg base c d : PyInt.digit_value base c = Some d -> 0 <= d.
Proof.
  unfold PyInt.digit_value.
  set (n := Z.of_N (N_of_ascii c)).
  destruct ((48 <=? n) && (n <=? 57)) eqn:E1.
  { apply andb_prop in E1 as [E1 _]. apply Z.leb_le in E1.
    destruct (_ <? _); intros [= <-]. lia. }
  destruct ((97 <=? n) && (n <=? 122)) eqn:E2.
  { apply andb_prop in E2 as [E2 _]. apply Z.leb_le in E2.
    destruct (_ <? _); intros [= <-]. lia. }
  destruct ((65 <=? n) && (n <=? 90)) eqn:E3.
  { apply andb_prop in E3 as [E3 _]. apply Z.leb_le in E3.
    destruct (_ <? _); intros [= <-]. lia. }
  destruct (_ <? _); intros [= <-]. lia.
Qed.

Lemma scan_digits_nonneg base s : 0 <= base ->
  forall prev acc digits v n rest,
    0 <= acc ->
    PyInt.scan_digits base s prev acc digits = Some (v, n, rest) -> 0 <= v.
Proof.
  intros Hb. induction s as [| c s IH]; intros prev acc digits v n rest Hacc; simpl.
  - destruct prev; [discriminate |]. intros [= <- _ _]. exact Hacc.
  - destruct (Ascii.eqb c PyInt.underscore).
    + destruct prev; [discriminate |]. apply IH. exact Hacc.
    + destruct (PyInt.digit_value base c) as [d |] eqn:Ed.
      * apply IH. apply digit_value_nonneg in Ed. nia.
      * destruct prev; [discriminate |]. intros [= <- _ _]. exact Hacc.
Qed.

Lemma parse_sign base s v : 0 <= base ->
  PyInt.parse base s = inr v ->
  v < 0 -> exists s', PyInt.skip_spaces s = "-"%char :: s'.
Proof.
  intros Hb. unfold PyInt.parse.
  destruct (PyInt.skip_sign (PyInt.skip_spaces s)) as [negative s1] eqn:Es.
  destruct (PyInt.skip_prefix base s1) as [| c s2]; [discriminate |].
  destruct (Ascii.eqb c PyInt.underscore); [discriminate |].
  destruct (PyInt.scan_digits base (c :: s2) false 0 0) as [[[v0 n] rest] |] eqn:Escan; [| discriminate].
  apply scan_digits_nonneg in Escan; [| assumption | lia].
  destruct (negb (base =? 16) && (PyInt.int_max_str_digits <? n)%nat); [discriminate |].
  destruct n; [discriminate |].
  destruct (PyInt.skip_spaces rest); [| discriminate].
  intros [= <-] Hneg.
  destruct negative; [| lia].
  unfold PyInt.skip_sign in Es.
  destruct (PyInt.skip_spaces s) as [| a s0]; [discriminate |].
  destruct (Ascii.eqb_spec a "-"%char) as [-> | Hne]; [eauto |].
  destruct (Ascii.eqb_spec a "+"%char) as [-> | Hne']; [discriminate |].
  exfalso.
  destruct a as [[] [] [] [] [] [] [] []]; try discriminate Es; congruence.
Qed.

Lemma int_sign s base v : 0 <= base ->
  PyInt.int s base = inr v -> v < 0 -> leading_minus s = true.
Proof.
  intros Hb. unfold PyInt.int, leading_minus.
  destruct (PyInt.parse _ _) as [e | v'] eqn:E; [discriminate |].
  intros [= ->] Hneg.
  destruct (parse_sign _ _ _ Hb E Hneg) as [s' ->]. reflexivity.
Qed.

Lemma chars_head c1 c2 s :
  PyStr.is_continuation c2 = false ->
  PyStr.chars (String c1 (String c2 s)) = String c1 "" :: PyStr.chars (String c2 s).
Proof.
  intros H. change (PyStr.chars (String c1 (String c2 s))) with
    (let chs := PyStr.chars (String c2 s) in
     if PyStr.continues (String c2 s) then
       match chs with ch :: chs' => String c1 ch :: chs' | [] => [String c1 ""] end
     else String c1 "" :: chs).
  cbv zeta. unfold PyStr.continues. rewrite H. reflexivity.
Qed.

Lemma hex_prefix_no_minus s : PyStr.startswith "0x" s = true -> leading_minus s = false.
Proof.
  unfold PyStr.startswith.
  destruct s as [| c1 [| c2 s]]; cbn [String.prefix]; try discriminate.
  - destruct (ascii_dec "0" c1); discriminate.
  - destruct (ascii_dec "0" c1) as [<- |]; [| discriminate].
    destruct (ascii_dec "x" c2) as [<- |]; [| discriminate].
    intros _. unfold leading_minus. rewrite chars_head by reflexivity.
    reflexivity.
Qed.

Lemma int_field_sign value v :
  int_field value = inr v ->
  (PyStr.startswith "0x" value = true -> 0 <= v) /\
  (v < 0 -> leading_minus value = true).
Proof.
  unfold int_field. intros H.
  assert (v < 0 -> leading_minus value = true) as Hneg.
  { destruct (PyStr.startswith "0x" value); eapply int_sign; eauto; lia. }
  split; [| exact Hneg].
  intros Hp. destruct (Z.ltb_spec v 0) as [Hlt |]; [| assumption].
  rewrite (hex_prefix_no_minus _ Hp) in Hneg. specialize (Hneg Hlt). discriminate.
Qed.

(** ** The boundary of [simulate_transaction] *)

Ltac lookups :=
  repeat split;
  first [ reflexivity | eexists; reflexivity | left; reflexivity
        | right; eexists; reflexivity ].

Lemma ending_success_error self chain_id from_address to_address value data gas
    gas_price t result t' :
  ending self chain_id from_address to_address value data gas gas_price t
    result t' ->
  (exists b, result !! "success" = Some (VBool b)) /\
  (result !! "error" = Some VNone \/
   exists msg, result !! "error" = Some (VStr msg)).
Proof.
  intros []; split; try (eexists; reflexivity);
    try (right; eexists; reflexivity).
  rewrite full_result_error. destruct (error_msg_of w3 tx); [right | left]; eauto.
Qed.


(** An unexpected error: a value that is not a number. *)
Example unexpected_error_is_absorbed :
  simulate_transaction (Examples.mainnet (Examples.healthy 21000 1000000000)) 1
    Examples.alice Examples.usdc "abc" "0x" None None [] =
  (inr (failure_result
          "Simulation failed: invalid literal for int() with base 10: 'abc'" 1),
   []).
Proof. reflexivity. Qed.

(** ** Fields of the result *)

(** C2, as stated, fails: on an unsupported chain the result has no
    [gas_used], no [warnings] and no [asset_changes]. *)
Lemma partial_result_on_unsupported_chain :
  exists result,
    simulate_transaction (Examples.mainnet (Examples.healthy 21000 1000000000))
      999 Examples.alice Examples.usdc "0x0" "0x" None None [] = (inr result, []) /\
    result !! "gas_used" = None /\
    result !! "warnings" = None /\
    result !! "asset_changes" = None.
Proof. eexists. split; [reflexivity |]. repeat split. Qed.

(** The outcome of the pipeline is the full result exactly when the
    conversions and the formatting go through. *)
Lemma from_wei_cases n unit :
  (0 <= n <= Web3Units.MAX_WEI /\
   Web3Units.from_wei n unit =
     inr (if n =? 0 then Web3Units.Int 0 else Web3Units.Decimal n unit)) \/
  ((n < 0 \/ Web3Units.MAX_WEI < n) /\
   Web3Units.from_wei n unit = inl (ValueError Web3Units.range_text)).
Proof.
  destruct (Z_lt_le_dec n 0) as [Hneg | Hpos].
  { right. split; [by left |]. by apply from_wei_negative. }
  destruct (Z_lt_le_dec Web3Units.MAX_WEI n) as [Hbig | Hsmall].
  { right. split; [by right |]. by apply from_wei_out_of_range. }
  left. split; [done |]. by apply from_wei_in_range.
Qed.

Lemma analyze_asset_changes_cases w3 from_addr to_addr value data :
  (value <= Web3Units.MAX_WEI /\
   exists asset_changes,
     _analyze_asset_changes w3 from_addr to_addr value data = inr asset_changes) \/
  (Web3Units.MAX_WEI < value /\
   _analyze_asset_changes w3 from_addr to_addr value data
   = inl (ValueError Web3Units.range_text)).
Proof.
  unfold _analyze_asset_changes.
  assert (0 < Web3Units.MAX_WEI) by reflexivity.
  destruct (0 <? value) eqn:E.
  - apply Z.ltb_lt in E.
    destruct (from_wei_cases value Web3Units.ether) as [[Hr ->] | [Hr ->]].
    + left. split; [lia | eauto].
    + right. split; [lia | reflexivity].
  - apply Z.ltb_ge in E. left. split; [lia | eauto].
Qed.

Lemma generate_warnings_cases success gas_estimate gas_cost_usd asset_changes :
  (gas_estimate < PyInt.str_bound /\
   exists warnings,
     _generate_warnings success gas_estimate gas_cost_usd asset_changes
     = inr warnings) \/
  (PyInt.str_bound <= gas_estimate /\
   _generate_warnings success gas_estimate gas_cost_usd asset_changes
   = inl (ValueError PyInt.str_limit_text)).
Proof.
  destruct (Z_lt_le_dec gas_estimate PyInt.str_bound) as [Hsmall | Hbig].
  - left. split; [done |]. rewrite generate_warnings_inr by done. eauto.
  - right. split; [done |]. rewrite generate_warnings_spec.
    pose proof MAX_WEI_lt_str_bound.
    assert (0 < Web3Units.MAX_WEI - 1000000) by reflexivity.
    rewrite (proj2 (Z.ltb_lt 1000000 gas_estimate)) by lia.
    rewrite (proj2 (too_long_true gas_estimate)) by lia.
    reflexivity.
Qed.

Lemma predict_convertible w3 chain_id from_addr to_addr tx data t :
  match fst (predict w3 chain_id from_addr to_addr tx data t) with
  | inr result => convertible w3 tx = true /\ dom result = full_keys
  | inl _ => convertible w3 tx = false
  end.
Proof.
  rewrite predict_spec. cbn [fst]. unfold convertible.
  set (gas_estimate := gas_estimate_of w3 tx).
  set (price := current_gas_price_of w3).
  destruct (from_wei_cases (gas_estimate * price) Web3Units.ether)
    as [[Hcost ->] | [Hcost ->]].
  2: { destruct Hcost as [Hcost | Hcost].
       - by rewrite (proj2 (Z.leb_gt _ _) Hcost).
       - by rewrite (proj2 (Z.leb_gt _ _) Hcost), andb_false_r. }
  rewrite (proj2 (Z.leb_le _ _) (proj1 Hcost)), (proj2 (Z.leb_le _ _) (proj2 Hcost)).
  cbn [andb].
  destruct (analyze_asset_changes_cases w3 from_addr to_addr (tx_value tx) data)
    as [[Hvalue [asset_changes ->]] | [Hvalue ->]].
  2: by rewrite (proj2 (Z.leb_gt _ _) Hvalue).
  rewrite (proj2 (Z.leb_le _ _) Hvalue). cbn [andb].
  match goal with
  | |- context [_generate_warnings ?s ?g ?c ?a] =>
      destruct (generate_warnings_cases s g c a)
        as [[Hgas [warnings ->]] | [Hgas ->]]
  end.
  2: by rewrite (proj2 (Z.ltb_ge _ _) Hgas).
  rewrite (proj2 (Z.ltb_lt _ _) Hgas). cbn [andb].
  destruct (from_wei_cases price Web3Units.gwei) as [[Hprice ->] | [Hprice ->]].
  - rewrite (proj2 (Z.leb_le _ _) (proj1 Hprice)),
      (proj2 (Z.leb_le _ _) (proj2 Hprice)).
    split; [reflexivity | apply full_result_dom].
  - destruct Hprice as [Hprice | Hprice].
    + by rewrite (proj2 (Z.leb_gt _ _) Hprice).
    + by rewrite (proj2 (Z.leb_gt _ _) Hprice), andb_false_r.
Qed.

(** With the fallbacks of the gas estimation and of the gas price, only
    the value can be out of range. *)
Lemma convertible_fallbacks w3 tx e1 e2 :
  estimate_gas_reply w3 tx = inl e1 ->
  gas_price_reply w3 = inl e2 ->
  convertible w3 tx = (tx_value tx <=? Web3Units.MAX_WEI).
Proof.
  intros H1 H2. unfold convertible, gas_estimate_of, current_gas_price_of.
  rewrite H1, H2.
  assert ((0 <=? 21000 * Web3Units.to_wei 20 Web3Units.gwei) = true) as ->
    by reflexivity.
  assert ((21000 * Web3Units.to_wei 20 Web3Units.gwei <=? Web3Units.MAX_WEI) = true)
    as -> by reflexivity.
  assert ((21000 <? PyInt.str_bound) = true) as ->
    by (vm_compute; reflexivity).
  assert ((0 <=? Web3Units.to_wei 20 Web3Units.gwei) = true) as -> by reflexivity.
  assert ((Web3Units.to_wei 20 Web3Units.gwei <=? Web3Units.MAX_WEI) = true) as ->
    by reflexivity.
  cbn [andb]. by rewrite !andb_true_r.
Qed.

(** C2, amended. For every input the result defines [success], [error] and
    [chain_id]. It has exactly the ten fields of the full result when the
    chain has a handle, both addresses pass the check, the numbers parse,
    and the conversions after the queries go through ([convertible]: the
    gas cost and the gas price in the range of [from_wei], the value at
    most [2**256 - 1], the gas estimate below [10**4300]); when the gas
    estimation and the gas price query both fail, whatever [eth_call]
    answers, this is the case as soon as the value is at most
    [2**256 - 1]. In every other case the result has exactly the three
    fields [success], [error] and [chain_id]. *)
Theorem result_fields self chain_id from_address to_address value data gas
    gas_price t :
  exists result t',
    simulate_transaction self chain_id from_address to_address value data
      gas gas_price t = (inr result, t') /\
    is_Some (result !! "success") /\
    is_Some (result !! "error") /\
    result !! "chain_id" = Some (VInt chain_id) /\
    match w3_instances self !! chain_id,
          normalize_address from_address, normalize_address to_address with
    | Some w3, inr from_addr, inr to_addr =>
        match build_tx from_addr to_addr value data gas gas_price with
        | inr tx =>
            dom result = (if convertible w3 tx then full_keys else failure_keys) /\
            match estimate_gas_reply w3 tx, gas_price_reply w3 with
            | inl _, inl _ =>
                convertible w3 tx = (tx_value tx <=? Web3Units.MAX_WEI)
            | _, _ => True
            end
        | inl _ => dom result = failure_keys
        end
    | _, _, _ => dom result = failure_keys
    end.
Proof.
  destruct (simulate_transaction_ending self chain_id from_address to_address
              value data gas gas_price t) as (result & t' & Hrun & Hend).
  exists result, t'. split; [exact Hrun |].
  destruct (ending_success_error _ _ _ _ _ _ _ _ _ _ _ Hend) as [[b Hs] He].
  split; [rewrite Hs; eauto |].
  split; [destruct He as [-> | [msg ->]]; eauto |].
  split; [destruct Hend; reflexivity |].
  destruct Hend as [chain Hw3 Hstr | e Hw3 Hstr | w3 e Hw3 Hfrom
                   | w3 from_addr e Hw3 Hfrom Hto
                   | w3 from_addr to_addr e Hw3 Hfrom Hto Htx
                   | w3 from_addr to_addr tx e Hw3 Hfrom Hto Htx Hp
                   | w3 from_addr to_addr tx gas_cost_eth asset_changes warnings
                       gas_price_gwei Hw3 Hfrom Hto Htx Hcost Hchanges Hwarn Hprice].
  - rewrite Hw3. apply failure_result_dom.
  - rewrite Hw3. apply failure_result_dom.
  - rewrite Hw3, Hfrom. apply failure_result_dom.
  - rewrite Hw3, Hfrom, Hto. apply failure_result_dom.
  - rewrite Hw3, Hfrom, Hto, Htx. apply failure_result_dom.
  - rewrite Hw3, Hfrom, Hto, Htx.
    pose proof (predict_convertible w3 chain_id from_addr to_addr tx data t) as Hc.
    rewrite Hp in Hc. rewrite Hc. split; [apply failure_result_dom |].
    destruct (estimate_gas_reply w3 tx) as [e1 |] eqn:H1; [| exact I].
    destruct (gas_price_reply w3) as [e2 |] eqn:H2; [| exact I].
    rewrite <- Hc. eapply convertible_fallbacks; eauto.
  - rewrite Hw3, Hfrom, Hto, Htx.
    pose proof (predict_convertible w3 chain_id from_addr to_addr tx data t) as Hc.
    rewrite predict_spec in Hc. cbn [fst] in Hc.
    rewrite Hcost, Hchanges, Hwarn, Hprice in Hc. destruct Hc as [Hc _].
    rewrite Hc. split; [apply full_result_dom |].
    destruct (estimate_gas_reply w3 tx) as [e1 |] eqn:H1; [| exact I].
    destruct (gas_price_reply w3) as [e2 |] eqn:H2; [| exact I].
    rewrite <- Hc. eapply convertible_fallbacks; eauto.
Qed.

(** When every query fails the ten fields are there. *)
Example full_result_when_queries_fail :
  exists result,
    simulate_transaction
      (Examples.mainnet
         {| call_reply := fun _ => inl (Exn "Exception" "execution reverted");
            estimate_gas_reply := fun _ => inl (Exn "Exception" "out of gas");
            gas_price_reply := inl (Exn "ConnectionError" "timed out") |})
      1 Examples.alice Examples.usdc "0x0" "0x" None None [] =
    (inr result, requests_of (Examples.transfer_tx 0)) /\
    dom result = full_keys /\
    result !! "success" = Some (VBool false) /\
    result !! "gas_used" = Some (VInt 21000) /\
    result !! "error" = Some (VStr "execution reverted").
Proof.
  eexists. split; [reflexivity |]. split; [apply full_result_dom |].
  repeat split.
Qed.

(** ** Unsupported chains *)



Lemma unsupported_chain_run self chain_id from_address to_address value data
    gas gas_price t :
  w3_instances self !! chain_id = None ->
  simulate_transaction self chain_id from_address to_address value data gas
    gas_price t =
  (inr (failure_result
          (if PyInt.too_long chain_id
           then "Simulation failed: " +:+ PyInt.str_limit_text
           else "Chain " +:+ pretty chain_id +:+ " not supported") chain_id), t).
Proof.
  intros H. unfold simulate_transaction, simulate_body, mbind, M_bind, attempt.
  rewrite H. unfold lift, PyInt.str.
  destruct (PyInt.too_long chain_id); reflexivity.
Qed.




(** ** Address validation *)

(** C4, as stated, fails: an address with a space in front is not 42
    characters behind [0x], yet it is accepted and the queries are sent. *)
Lemma padded_address_accepted :
  address_shape (" " +:+ Examples.alice) = false /\
  exists result,
    simulate_transaction (Examples.mainnet (Examples.healthy 21000 1000000000))
      1 (" " +:+ Examples.alice) Examples.usdc "0x0" "0x" None None [] =
    (inr result, requests_of (Examples.transfer_tx 0)) /\
    result !! "success" = Some (VBool true) /\
    result !! "error" = Some VNone.
Proof. split; [reflexivity |]. eexists. split; [reflexivity |]. split; reflexivity. Qed.

Lemma normalize_address_shape addr :
  normalize_address addr =
  if address_shape (PyStr.strip addr) then inr (PyStr.strip addr)
  else inl (ValueError ("Invalid address format: " +:+ PyStr.strip addr)).
Proof.
  unfold normalize_address, address_shape.
  destruct (PyStr.startswith "0x" (PyStr.strip addr)),
    (PyStr.len (PyStr.strip addr) =? 42); reflexivity.
Qed.

(** C4, amended. On a supported chain, when [from_address] or [to_address],
    with the surrounding whitespace stripped, is not 42 characters long
    behind the prefix [0x], the call returns [success = False] with the
    error ["Invalid address: Invalid address format: <address>"], and sends
    no query. *)
Theorem invalid_address_rejected self chain_id w3 from_address to_address
    value data gas gas_price t :
  w3_instances self !! chain_id = Some w3 ->
  address_shape (PyStr.strip from_address) = false \/
  address_shape (PyStr.strip to_address) = false ->
  exists result addr,
    simulate_transaction self chain_id from_address to_address value data gas
      gas_price t = (inr result, t) /\
    result !! "success" = Some (VBool false) /\
    result !! "error" =
      Some (VStr ("Invalid address: Invalid address format: " +:+ addr)) /\
    (addr = PyStr.strip from_address \/ addr = PyStr.strip to_address).
Proof.
  intros Hw3 Hshape.
  unfold simulate_transaction, simulate_body, mbind at 1, M_bind, attempt.
  rewrite Hw3, !normalize_address_shape.
  destruct (address_shape (PyStr.strip from_address)) eqn:Hfrom.
  - destruct Hshape as [| Hto]; [discriminate |]. rewrite Hto.
    eexists _, _. split; [reflexivity |]. repeat split. right. reflexivity.
  - eexists _, _. split; [reflexivity |]. repeat split. left. reflexivity.
Qed.

Lemma invalid_address_rejected_witness :
  exists result addr,
    simulate_transaction (Examples.mainnet (Examples.healthy 21000 1000000000))
      1 Examples.alice "0x12" "0x0" "0x" None None [] = (inr result, []) /\
    result !! "success" = Some (VBool false) /\
    result !! "error" =
      Some (VStr ("Invalid address: Invalid address format: " +:+ addr)) /\
    (addr = PyStr.strip Examples.alice \/ addr = PyStr.strip "0x12").
Proof.
  apply (invalid_address_rejected _ 1 (Examples.healthy 21000 1000000000)).
  - reflexivity.
  - right. reflexivity.
Defined.

(** ** Runs on a supported chain with valid input *)

Lemma supported_run self chain_id w3 from_address to_address value data gas
    gas_price from_addr to_addr tx t :
  w3_instances self !! chain_id = Some w3 ->
  normalize_address from_address = inr from_addr ->
  normalize_address to_address = inr to_addr ->
  build_tx from_addr to_addr value data gas gas_price = inr tx ->
  simulate_transaction self chain_id from_address to_address value data gas
    gas_price t =
  match predict w3 chain_id from_addr to_addr tx data t with
  | (inl e, t') =>
      (inr (failure_result ("Simulation failed: " +:+ exn_str e) chain_id), t')
  | (inr result, t') => (inr result, t')
  end.
Proof.
  intros Hw3 Hfrom Hto Htx.
  unfold simulate_transaction, simulate_body, mbind at 1, M_bind, attempt.
  rewrite Hw3, Hfrom, Hto. cbn [mbind Exc_bind mret Exc_ret].
  unfold mbind, M_bind, lift. rewrite Htx.
  destruct (predict w3 chain_id from_addr to_addr tx data t) as [[e | r] t'];
    reflexivity.
Qed.

Lemma completed_run self chain_id w3 from_address to_address value data gas
    gas_price from_addr to_addr tx gas_cost_eth asset_changes warnings
    gas_price_gwei t :
  w3_instances self !! chain_id = Some w3 ->
  normalize_address from_address = inr from_addr ->
  normalize_address to_address = inr to_addr ->
  build_tx from_addr to_addr value data gas gas_price = inr tx ->
  Web3Units.from_wei (gas_estimate_of w3 tx * current_gas_price_of w3)
    Web3Units.ether = inr gas_cost_eth ->
  _analyze_asset_changes w3 from_addr to_addr (tx_value tx) data
    = inr asset_changes ->
  _generate_warnings (simulation_success_of w3 tx) (gas_estimate_of w3 tx)
    (gas_cost_usd_of chain_id gas_cost_eth) asset_changes = inr warnings ->
  Web3Units.from_wei (current_gas_price_of w3) Web3Units.gwei
    = inr gas_price_gwei ->
  simulate_transaction self chain_id from_address to_address value data gas
    gas_price t =
  (inr (full_result (simulation_success_of w3 tx) (gas_estimate_of w3 tx)
          (Web3Units.to_float gas_cost_eth)
          (PyFloat.round4 (gas_cost_usd_of chain_id gas_cost_eth))
          (Web3Units.to_float gas_price_gwei)
          (error_msg_of w3 tx) asset_changes warnings chain_id),
   t ++ requests_of tx).
Proof.
  intros Hw3 Hfrom Hto Htx H1 H2 H4 H3.
  rewrite (supported_run _ _ _ _ _ _ _ _ _ _ _ _ _ Hw3 Hfrom Hto Htx).
  rewrite predict_spec, H1, H2, H4, H3. reflexivity.
Qed.

(** The fallback of the gas estimation is far below the limit of [str]. *)
Lemma fallback_lt_str_bound : 21000 < PyInt.str_bound.
Proof. apply Z.ltb_lt. vm_compute. reflexivity. Qed.

Lemma ending_unique self chain_id from_address to_address value data gas
    gas_price t result t' :
  simulate_transaction self chain_id from_address to_address value data gas
    gas_price t = (inr result, t') ->
  ending self chain_id from_address to_address value data gas gas_price t
    result t'.
Proof.
  intros Hrun.
  destruct (simulate_transaction_ending self chain_id from_address to_address
              value data gas gas_price t) as (r & t0 & Hrun' & Hend).
  rewrite Hrun in Hrun'. injection Hrun' as -> ->. exact Hend.
Qed.

Lemma build_tx_value from_addr to_addr value data gas gas_price tx :
  build_tx from_addr to_addr value data gas gas_price = inr tx ->
  int_field value = inr (tx_value tx) /\
  tx_from tx = from_addr /\ tx_to tx = to_addr.
Proof.
  unfold build_tx. cbn [mbind Exc_bind mret Exc_ret].
  destruct (int_field value) as [e | v]; [discriminate |].
  destruct (optional_int_field gas) as [e | g]; [discriminate |].
  destruct (optional_int_field gas_price) as [e | p]; [discriminate |].
  intros [= <-]. repeat split.
Qed.

(** [_analyze_asset_changes] on a value [from_wei] accepts. *)
Lemma analyze_asset_changes_in_range w3 from_addr to_addr value data :
  value <= Web3Units.MAX_WEI ->
  _analyze_asset_changes w3 from_addr to_addr value data =
  inr (if 0 <? value
       then [native_transfer from_addr to_addr value
               (Web3Units.Decimal value Web3Units.ether)]
       else []).
Proof.
  intros Hmax. unfold _analyze_asset_changes.
  destruct (Z.ltb_spec 0 value) as [Hpos |]; [| reflexivity].
  rewrite from_wei_in_range by lia.
  destruct (Z.eqb_spec value 0); [lia | reflexivity].
Qed.

Lemma analyze_asset_changes_inr w3 from_addr to_addr value data changes :
  _analyze_asset_changes w3 from_addr to_addr value data = inr changes ->
  value <= Web3Units.MAX_WEI /\
  changes = (if 0 <? value
             then [native_transfer from_addr to_addr value
                     (Web3Units.Decimal value Web3Units.ether)]
             else []).
Proof.
  intros H.
  assert (value <= Web3Units.MAX_WEI) as Hmax.
  { revert H. unfold _analyze_asset_changes.
    destruct (Z.ltb_spec 0 value) as [Hpos |].
    - destruct (Web3Units.from_wei value Web3Units.ether) eqn:E; [discriminate |].
      apply from_wei_inr in E. lia.
    - intros _. assert (0 < Web3Units.MAX_WEI) by reflexivity. lia. }
  split; [exact Hmax |].
  rewrite analyze_asset_changes_in_range in H by exact Hmax. congruence.
Qed.

(** ** Gas estimation *)

(** C5, as stated, fails: when [eth_call] fails with an empty error text
    and the gas estimation fails too, the error recorded by the first step
    is replaced by the gas estimation message. *)
Lemma empty_call_error_overwritten :
  let w3 := Examples.failing "" "boom" 1000000000 in
  call_error_of w3 (Examples.transfer_tx 0) = Some "" /\
  exists result,
    simulate_transaction (Examples.mainnet w3) 1 Examples.alice Examples.usdc
      "0x0" "0x" None None [] =
    (inr result, requests_of (Examples.transfer_tx 0)) /\
    result !! "success" = Some (VBool false) /\
    result !! "error" = Some (VStr "Gas estimation failed: boom").
Proof.
  split; [reflexivity |]. eexists. split; [reflexivity |]. split; reflexivity.
Qed.

(** C5, amended. On a supported chain with valid addresses and numbers,
    when the gas estimation fails and every amount converted by [from_wei]
    is within its range, the result has [gas_used = 21000] whatever the
    other two queries answer; its error is the text of the [eth_call]
    failure when that text is not empty, and the gas estimation message
    when [eth_call] succeeded or failed with an empty text. *)
Theorem gas_estimation_fallback self chain_id w3 from_address to_address value
    data gas gas_price from_addr to_addr tx gas_error t :
  w3_instances self !! chain_id = Some w3 ->
  normalize_address from_address = inr from_addr ->
  normalize_address to_address = inr to_addr ->
  build_tx from_addr to_addr value data gas gas_price = inr tx ->
  estimate_gas_reply w3 tx = inl gas_error ->
  0 <= current_gas_price_of w3 ->
  21000 * current_gas_price_of w3 <= Web3Units.MAX_WEI ->
  tx_value tx <= Web3Units.MAX_WEI ->
  exists result,
    simulate_transaction self chain_id from_address to_address value data gas
      gas_price t = (inr result, t ++ requests_of tx) /\
    result !! "gas_used" = Some (VInt 21000) /\
    result !! "error" =
      Some (VStr match call_reply w3 tx with
                 | inl call_error =>
                     if PyStr.truthy (exn_str call_error)
                     then exn_str call_error
                     else "Gas estimation failed: " +:+ exn_str gas_error
                 | inr _ => "Gas estimation failed: " +:+ exn_str gas_error
                 end).
Proof.
  intros Hw3 Hfrom Hto Htx Hgas Hp0 Hp1 Hv.
  assert (gas_estimate_of w3 tx = 21000) as Hest
    by (unfold gas_estimate_of; rewrite Hgas; reflexivity).
  eexists. split.
  - eapply completed_run; eauto.
    + rewrite Hest. apply from_wei_in_range. lia.
    + apply analyze_asset_changes_in_range, Hv.
    + apply generate_warnings_inr. rewrite Hest. apply fallback_lt_str_bound.
    + apply from_wei_in_range. lia.
  - rewrite full_result_gas_used, full_result_error, Hest.
    split; [reflexivity |].
    unfold error_msg_of, call_error_of. rewrite Hgas.
    destruct (call_reply w3 tx) as [call_error |]; cbn [truthy_opt negb];
      [| reflexivity].
    destruct (PyStr.truthy (exn_str call_error)); reflexivity.
Qed.

Lemma gas_estimation_fallback_witness :
  exists result,
    simulate_transaction
      (Examples.mainnet (Examples.failing "execution reverted" "boom" 1000000000))
      1 Examples.alice Examples.usdc "0x0" "0x" None None [] =
    (inr result, [] ++ requests_of (Examples.transfer_tx 0)) /\
    result !! "gas_used" = Some (VInt 21000) /\
    result !! "error" = Some (VStr "execution reverted").
Proof.
  apply (gas_estimation_fallback
           (Examples.mainnet (Examples.failing "execution reverted" "boom" 1000000000))
           1 (Examples.failing "execution reverted" "boom" 1000000000)
           Examples.alice Examples.usdc "0x0" "0x" None None
           Examples.alice Examples.usdc (Examples.transfer_tx 0)
           (Exn "Exception" "boom") []);
    first [reflexivity | vm_compute; discriminate].
Defined.

(** C6, as stated, fails: the value reported by the node is used as it
    is, also when it is zero. *)
Lemma zero_gas_estimate_reported :
  exists result,
    simulate_transaction (Examples.mainnet (Examples.healthy 0 1000000000)) 1
      Examples.alice Examples.usdc "0x0" "0x" None None [] =
    (inr result, requests_of (Examples.transfer_tx 0)) /\
    result !! "gas_used" = Some (VInt 0).
Proof. eexists. split; reflexivity. Qed.

(** On an early exit the result has no [gas_used] at all. *)
Example no_gas_used_on_invalid_address :
  simulate_transaction (Examples.mainnet (Examples.healthy 21000 1000000000)) 1
    "0x12" Examples.usdc "0x0" "0x" None None [] =
  (inr (failure_result "Invalid address: Invalid address format: 0x12" 1), []) /\
  failure_result "Invalid address: Invalid address format: 0x12" 1 !! "gas_used"
    = None.
Proof. split; reflexivity. Qed.

(** C6, amended. When the result has a [gas_used], the three queries were
    sent on a supported chain, and [gas_used] is the value the node
    reported for the gas estimation, whatever it is, or 21000 when that
    query failed. *)
Theorem gas_used_value self chain_id from_address to_address value data gas
    gas_price t result t' g :
  simulate_transaction self chain_id from_address to_address value data gas
    gas_price t = (inr result, t') ->
  result !! "gas_used" = Some g ->
  exists w3 tx,
    w3_instances self !! chain_id = Some w3 /\
    t' = t ++ requests_of tx /\
    g = VInt match estimate_gas_reply w3 tx with
             | inr reported => reported
             | inl _ => 21000
             end.
Proof.
  intros Hrun Hg. apply ending_unique in Hrun.
  destruct Hrun; try discriminate Hg.
  rewrite full_result_gas_used in Hg. injection Hg as <-.
  exists w3, tx. repeat split; assumption.
Qed.

Lemma gas_used_value_witness :
  exists w3 tx,
    w3_instances (Examples.mainnet (Examples.healthy 5 1000000000)) !! 1 = Some w3 /\
    requests_of (Examples.transfer_tx 0) = [] ++ requests_of tx /\
    VInt 5 = VInt match estimate_gas_reply w3 tx with
                  | inr reported => reported
                  | inl _ => 21000
                  end.
Proof.
  eapply (gas_used_value (Examples.mainnet (Examples.healthy 5 1000000000)) 1
            Examples.alice Examples.usdc "0x0" "0x" None None []);
    reflexivity.
Defined.

(** ** Values and amounts *)

(** C7, as stated, fails: the decimal string ["-5"] is accepted and the
    payload sent to the node carries the value -5. *)
Lemma negative_value_accepted :
  int_field "-5" = inr (-5) /\
  exists result,
    simulate_transaction (Examples.mainnet (Examples.healthy 21000 1000000000))
      1 Examples.alice Examples.usdc "-5" "0x" None None [] =
    (inr result, requests_of (Examples.transfer_tx (-5))) /\
    tx_value (Examples.transfer_tx (-5)) < 0.
Proof.
  split; [reflexivity |]. eexists. split; reflexivity.
Qed.

Lemma payload_requests_of q tx tx' :
  q ∈ requests_of tx -> payload q = Some tx' -> tx' = tx.
Proof.
  unfold requests_of. rewrite !elem_of_cons, elem_of_nil.
  intros [-> | [-> | [-> | []]]]; cbn [payload]; congruence.
Qed.

Lemma to_float_nonneg n :
  0 < n -> PyFloat.nonneg (Web3Units.to_float (Web3Units.Decimal n Web3Units.ether)) = true.
Proof.
  intros H. cbn [Web3Units.to_float]. apply of_quot_nonneg; [lia | reflexivity].
Qed.

(** C7, amended. The value in every payload sent to the node is the
    integer [int] reads from the value string: it is not negative when
    the string has the [0x] prefix, and it is negative only when the
    string, after leading spaces, starts with a minus sign. Every entry of
    [asset_changes] has a positive [amount_wei] and an [amount_eth] that is
    not negative. *)
Theorem payload_value_and_amounts self chain_id from_address to_address value
    data gas gas_price result t' :
  simulate_transaction self chain_id from_address to_address value data gas
    gas_price [] = (inr result, t') ->
  (forall q tx, q ∈ t' -> payload q = Some tx ->
     int_field value = inr (tx_value tx) /\
     (PyStr.startswith "0x" value = true -> 0 <= tx_value tx) /\
     (tx_value tx < 0 -> leading_minus value = true)) /\
  (forall changes c,
     result !! "asset_changes" = Some (VChanges changes) -> c ∈ changes ->
     0 < amount_wei c /\ PyFloat.nonneg (amount_eth c) = true).
Proof.
  intros Hrun. apply ending_unique in Hrun.
  assert (forall from_addr to_addr tx q tx',
            build_tx from_addr to_addr value data gas gas_price = inr tx ->
            q ∈ [] ++ requests_of tx -> payload q = Some tx' ->
            int_field value = inr (tx_value tx') /\
            (PyStr.startswith "0x" value = true -> 0 <= tx_value tx') /\
            (tx_value tx' < 0 -> leading_minus value = true)) as Hpayload.
  { intros from_addr to_addr tx q tx' Htx Hq Hp.
    rewrite app_nil_l in Hq. rewrite (payload_requests_of _ _ _ Hq Hp).
    apply build_tx_value in Htx as [Hv _].
    split; [exact Hv |]. apply int_field_sign, Hv. }
  destruct Hrun as [| | | | | w3 from_addr to_addr tx e Hw3 Hfrom Hto Htx Hraise
                    | w3 from_addr to_addr tx gas_cost_eth asset_changes
                        warnings gas_price_gwei Hw3 Hfrom Hto Htx H1 H2 H4 H3].
  1-5: split; [intros q tx Hq; apply elem_of_nil in Hq as [] | discriminate].
  - split; [intros q tx'; eapply Hpayload; eassumption | discriminate].
  - split; [intros q tx'; eapply Hpayload; eassumption |].
    intros changes c. rewrite full_result_asset_changes. intros [= <-] Hc.
    apply analyze_asset_changes_inr in H2 as [_ ->].
    destruct (Z.ltb_spec 0 (tx_value tx)) as [Hpos |];
      [| apply elem_of_nil in Hc as []].
    apply list_elem_of_singleton in Hc as ->.
    split; [exact Hpos | apply to_float_nonneg, Hpos].
Qed.

Lemma payload_value_and_amounts_witness :
  (forall q tx, q ∈ requests_of (Examples.transfer_tx 10000000) ->
     payload q = Some tx ->
     int_field "0x989680" = inr (tx_value tx) /\
     (PyStr.startswith "0x" "0x989680" = true -> 0 <= tx_value tx) /\
     (tx_value tx < 0 -> leading_minus "0x989680" = true)) /\
  (forall changes c,
     full_result true 21000
       (Web3Units.to_float (Web3Units.Decimal 21000000000000 Web3Units.ether))
       (PyFloat.round4
          (gas_cost_usd_of 1 (Web3Units.Decimal 21000000000000 Web3Units.ether)))
       (Web3Units.to_float (Web3Units.Decimal 1000000000 Web3Units.gwei))
       None
       [native_transfer Examples.alice Examples.usdc 10000000
          (Web3Units.Decimal 10000000 Web3Units.ether)]
       [] 1 !! "asset_changes" = Some (VChanges changes) ->
     c ∈ changes ->
     0 < amount_wei c /\ PyFloat.nonneg (amount_eth c) = true).
Proof.
  apply (payload_value_and_amounts
           (Examples.mainnet (Examples.healthy 21000 1000000000)) 1
           Examples.alice Examples.usdc "0x989680" "0x" None None).
  reflexivity.
Defined.

(** ** Asset changes *)

(** C8, as stated, fails: with the value 2^256 the request runs through the
    three queries and the cost computation, [_analyze_asset_changes] is
    called and [from_wei] raises in it; the result has no [asset_changes]. *)
Lemma oversized_value_has_no_asset_changes :
  let value :=
    "115792089237316195423570985008687907853269984665640564039457584007913129639936" in
  int_field value = inr (2 ^ 256) /\
  exists result,
    simulate_transaction (Examples.mainnet (Examples.healthy 21000 1000000000))
      1 Examples.alice Examples.usdc value "0x" None None [] =
    (inr result, requests_of (Examples.transfer_tx (2 ^ 256))) /\
    result !! "asset_changes" = None /\
    result !! "success" = Some (VBool false) /\
    result !! "error" =
      Some (VStr ("Simulation failed: " +:+ Web3Units.range_text)).
Proof.
  split; [reflexivity |]. eexists. split; [reflexivity |]. repeat split.
Qed.

(** The same happens when the gas estimate cannot be formatted for the
    warning about it: a node that reports an estimate of 4301 digits and a
    gas price of 0 passes every conversion of [from_wei]. *)
Example unformattable_estimate_has_no_asset_changes :
  exists result,
    simulate_transaction (Examples.mainnet (Examples.healthy (10 ^ 4300) 0))
      1 Examples.alice Examples.usdc "0x989680" "0x" None None [] =
    (inr result, requests_of (Examples.transfer_tx 10000000)) /\
    result !! "asset_changes" = None /\
    result !! "error" =
      Some (VStr ("Simulation failed: " +:+ PyInt.str_limit_text)).
Proof.
  exists (failure_result ("Simulation failed: " +:+ PyInt.str_limit_text) 1).
  split; [vm_compute; reflexivity | split; reflexivity].
Qed.

(** C8, amended. On a supported chain with valid addresses and numbers,
    when the gas cost and the gas price are amounts [from_wei] accepts, the
    gas estimate is below 10^4300 (it has at most 4300 decimal digits, so
    that the warning about it can be formatted) and the value is at most
    2^256 - 1, the result is
    returned after the three queries and its [asset_changes] is: for a
    value above 0, the single entry NATIVE / TRANSFER from the sender to
    the recipient with [amount_wei] equal to the value; otherwise the empty
    list. The call data plays no part. *)
Theorem asset_changes_of_value self chain_id w3 from_address to_address value
    data gas gas_price from_addr to_addr tx gas_cost_eth gas_price_gwei t :
  w3_instances self !! chain_id = Some w3 ->
  normalize_address from_address = inr from_addr ->
  normalize_address to_address = inr to_addr ->
  build_tx from_addr to_addr value data gas gas_price = inr tx ->
  Web3Units.from_wei (gas_estimate_of w3 tx * current_gas_price_of w3)
    Web3Units.ether = inr gas_cost_eth ->
  Web3Units.from_wei (current_gas_price_of w3) Web3Units.gwei
    = inr gas_price_gwei ->
  gas_estimate_of w3 tx < PyInt.str_bound ->
  tx_value tx <= Web3Units.MAX_WEI ->
  exists result,
    simulate_transaction self chain_id from_address to_address value data gas
      gas_price t = (inr result, t ++ requests_of tx) /\
    int_field value = inr (tx_value tx) /\
    result !! "asset_changes" =
      Some (VChanges
              (if 0 <? tx_value tx
               then [{| asset_type := "NATIVE";
                        change_type := "TRANSFER";
                        change_from := from_addr;
                        change_to := to_addr;
                        amount_wei := tx_value tx;
                        amount_eth :=
                          PyFloat.of_quot (tx_value tx) Web3Units.ether;
                        symbol := "ETH" |}]
               else [])).
Proof.
  intros Hw3 Hfrom Hto Htx H1 H3 Hgas Hv.
  eexists. split.
  - eapply completed_run; eauto.
    + apply analyze_asset_changes_in_range, Hv.
    + apply generate_warnings_inr, Hgas.
  - split; [apply (build_tx_value _ _ _ _ _ _ _ Htx) |].
    rewrite full_result_asset_changes. reflexivity.
Qed.

Lemma asset_changes_of_value_witness :
  exists result,
    simulate_transaction (Examples.mainnet (Examples.healthy 21000 1000000000))
      1 Examples.alice Examples.usdc "0x989680" "0xa9059cbb" None None [] =
    (inr result,
     [] ++ requests_of
             {| tx_from := Examples.alice; tx_to := Examples.usdc;
                tx_value := 10000000; tx_data := "0xa9059cbb";
                tx_gas := None; tx_gasPrice := None |}) /\
    int_field "0x989680" = inr 10000000 /\
    result !! "asset_changes" =
      Some (VChanges
              [{| asset_type := "NATIVE";
                  change_type := "TRANSFER";
                  change_from := Examples.alice;
                  change_to := Examples.usdc;
                  amount_wei := 10000000;
                  amount_eth := PyFloat.of_quot 10000000 Web3Units.ether;
                  symbol := "ETH" |}]).
Proof.
  apply (asset_changes_of_value
           (Examples.mainnet (Examples.healthy 21000 1000000000)) 1
           (Examples.healthy 21000 1000000000)
           Examples.alice Examples.usdc "0x989680" "0xa9059cbb" None None
           Examples.alice Examples.usdc
           {| tx_from := Examples.alice; tx_to := Examples.usdc;
              tx_value := 10000000; tx_data := "0xa9059cbb";
              tx_gas := None; tx_gasPrice := None |}
           (Web3Units.Decimal 21000000000000 Web3Units.ether)
           (Web3Units.Decimal 1000000000 Web3Units.gwei) []);
    first [reflexivity | vm_compute; discriminate].
Defined.

(** ** Warnings *)

Section Sublist.
Context {A : Type}.
Variables x1 x2 x3 x4 x5 : A.

Lemma picks_sublist b1 b2 b3 b4 b5 :
  pick b1 x1 ++ pick b2 x2 ++ pick b3 x3 ++ pick b4 x4 ++ pick b5 x5
    `sublist_of` [x1; x2; x3; x4; x5].
Proof.
  destruct b1, b2, b3, b4, b5; cbn [pick app];
    repeat first [apply sublist_nil | apply sublist_skip | apply sublist_cons].
Qed.
End Sublist.

(** Two warnings differ when they differ at byte [n]. *)
Ltac differ_at n :=
  let H := fresh in
  intros H; apply (f_equal (String.get n)) in H; cbn in H; discriminate H.

Lemma all_warnings_NoDup gas_estimate gas_cost_usd :
  NoDup (all_warnings gas_estimate gas_cost_usd).
Proof.
  unfold all_warnings, warning_fail, warning_high_gas, high_gas_text,
    warning_high_cost, warning_extreme_cost, warning_no_transfers.
  repeat (apply NoDup_cons; split);
    rewrite ?not_elem_of_cons; repeat split;
    try apply NoDup_nil_2; try apply not_elem_of_nil;
    try (differ_at 11%nat); try (differ_at 0%nat); try (differ_at 2%nat).
Qed.

Lemma elem_of_pick {A} (b : bool) (x y : A) : y ∈ pick b x <-> b = true /\ y = x.
Proof.
  destruct b; cbn [pick].
  - rewrite list_elem_of_singleton. intuition.
  - rewrite elem_of_nil. intuition discriminate.
Qed.

Lemma high_cost_warning_present success gas_estimate gas_cost_usd asset_changes
    warnings :
  _generate_warnings success gas_estimate gas_cost_usd asset_changes
  = inr warnings ->
  warning_high_cost gas_cost_usd ∈ warnings
  <-> PyFloat.gt_int gas_cost_usd 10 = true.
Proof.
  intros ->%generate_warnings_returned.
  pose proof (all_warnings_NoDup gas_estimate gas_cost_usd) as Hnd.
  unfold all_warnings in Hnd.
  rewrite !NoDup_cons, !not_elem_of_cons in Hnd.
  rewrite !elem_of_app, !elem_of_pick.
  intuition congruence.
Qed.

Lemma extreme_cost_warning_present success gas_estimate gas_cost_usd
    asset_changes warnings :
  _generate_warnings success gas_estimate gas_cost_usd asset_changes
  = inr warnings ->
  warning_extreme_cost ∈ warnings
  <-> PyFloat.gt_int gas_cost_usd 50 = true.
Proof.
  intros ->%generate_warnings_returned.
  pose proof (all_warnings_NoDup gas_estimate gas_cost_usd) as Hnd.
  unfold all_warnings in Hnd.
  rewrite !NoDup_cons, !not_elem_of_cons in Hnd.
  rewrite !elem_of_app, !elem_of_pick.
  intuition congruence.
Qed.

(** C9, as stated, fails: a cost of 10.000011 USD is above 10 and the
    high-cost warning is emitted, while the [gas_cost_usd] field of the
    result, rounded to four places, is exactly 10.0. *)
Lemma high_cost_warning_with_rounded_cost_10 :
  let usd :=
    gas_cost_usd_of 137
      (Web3Units.Decimal 10000011000000000000 Web3Units.ether) in
  exists result,
    simulate_transaction
      (Examples.mainnet (Examples.healthy 21000 476191000000000)) 137
      Examples.alice Examples.usdc "0x0" "0x" None None [] =
    (inr result, requests_of (Examples.transfer_tx 0)) /\
    result !! "gas_cost_usd" = Some (VFloat (PyFloat.of_int 10)) /\
    PyFloat.gt_int (PyFloat.of_int 10) 10 = false /\
    result !! "warnings" =
      Some (VStrs [warning_high_cost usd; warning_no_transfers]).
Proof.
  eexists. split; [reflexivity |]. repeat split.
Qed.

(** C9, amended. In every result that has [warnings], the high-cost
    warning is present exactly when the cost in USD before rounding, the
    float product of the cost in ether and the price of the chain, is
    above 10, and the extreme-cost warning exactly when that product is
    above 50; above 50 both are present; 10.0 and 50.0 themselves trigger
    neither. The [gas_cost_usd] field is that product rounded to four
    places. *)
Theorem cost_warnings self chain_id from_address to_address value data gas
    gas_price t result t' warnings :
  simulate_transaction self chain_id from_address to_address value data gas
    gas_price t = (inr result, t') ->
  result !! "warnings" = Some (VStrs warnings) ->
  exists w3 tx gas_cost_eth,
    w3_instances self !! chain_id = Some w3 /\
    Web3Units.from_wei (gas_estimate_of w3 tx * current_gas_price_of w3)
      Web3Units.ether = inr gas_cost_eth /\
    let gas_cost_usd :=
      PyFloat.mul (Web3Units.to_float gas_cost_eth) (_get_eth_price chain_id) in
    result !! "gas_cost_usd" = Some (VFloat (PyFloat.round4 gas_cost_usd)) /\
    (warning_high_cost gas_cost_usd ∈ warnings
     <-> PyFloat.gt_int gas_cost_usd 10 = true) /\
    (warning_extreme_cost ∈ warnings
     <-> PyFloat.gt_int gas_cost_usd 50 = true) /\
    (PyFloat.gt_int gas_cost_usd 50 = true ->
     warning_high_cost gas_cost_usd ∈ warnings /\
     warning_extreme_cost ∈ warnings) /\
    PyFloat.gt_int (PyFloat.of_int 10) 10 = false /\
    PyFloat.gt_int (PyFloat.of_int 50) 50 = false.
Proof.
  intros Hrun Hw. apply ending_unique in Hrun.
  destruct Hrun as [| | | | | |
    w3 from_addr to_addr tx gas_cost_eth asset_changes emitted gas_price_gwei
      Hw3 Hfrom Hto Htx H1 H2 H4 H3]; try discriminate Hw.
  rewrite full_result_warnings in Hw. injection Hw as <-.
  exists w3, tx, gas_cost_eth. split; [exact Hw3 |]. split; [exact H1 |].
  cbv zeta. fold (gas_cost_usd_of chain_id gas_cost_eth).
  pose proof (high_cost_warning_present _ _ _ _ _ H4) as H10.
  pose proof (extreme_cost_warning_present _ _ _ _ _ H4) as H50'.
  split; [apply full_result_gas_cost_usd |].
  split; [exact H10 |].
  split; [exact H50' |].
  split; [| split; reflexivity].
  intros H50. split.
  - apply H10, gt_int_50_10, H50.
  - apply H50', H50.
Qed.

Lemma cost_warnings_witness :
  exists w3 tx gas_cost_eth,
    w3_instances (Examples.mainnet (Examples.healthy 21000 476191000000000))
      !! 137 = Some w3 /\
    Web3Units.from_wei (gas_estimate_of w3 tx * current_gas_price_of w3)
      Web3Units.ether = inr gas_cost_eth /\
    let gas_cost_usd :=
      PyFloat.mul (Web3Units.to_float gas_cost_eth) (_get_eth_price 137) in
    full_result true 21000
      (Web3Units.to_float
         (Web3Units.Decimal 10000011000000000000 Web3Units.ether))
      (PyFloat.of_int 10)
      (Web3Units.to_float (Web3Units.Decimal 476191000000000 Web3Units.gwei))
      None []
      [warning_high_cost
         (gas_cost_usd_of 137
            (Web3Units.Decimal 10000011000000000000 Web3Units.ether));
       warning_no_transfers] 137
      !! "gas_cost_usd" = Some (VFloat (PyFloat.round4 gas_cost_usd)) /\
    (warning_high_cost gas_cost_usd
       ∈ [warning_high_cost
            (gas_cost_usd_of 137
               (Web3Units.Decimal 10000011000000000000 Web3Units.ether));
          warning_no_transfers]
     <-> PyFloat.gt_int gas_cost_usd 10 = true) /\
    (warning_extreme_cost
       ∈ [warning_high_cost
            (gas_cost_usd_of 137
               (Web3Units.Decimal 10000011000000000000 Web3Units.ether));
          warning_no_transfers]
     <-> PyFloat.gt_int gas_cost_usd 50 = true) /\
    (PyFloat.gt_int gas_cost_usd 50 = true ->
     warning_high_cost gas_cost_usd
       ∈ [warning_high_cost
            (gas_cost_usd_of 137
               (Web3Units.Decimal 10000011000000000000 Web3Units.ether));
          warning_no_transfers] /\
     warning_extreme_cost
       ∈ [warning_high_cost
            (gas_cost_usd_of 137
               (Web3Units.Decimal 10000011000000000000 Web3Units.ether));
          warning_no_transfers]) /\
    PyFloat.gt_int (PyFloat.of_int 10) 10 = false /\
    PyFloat.gt_int (PyFloat.of_int 50) 50 = false.
Proof.
  apply (cost_warnings
           (Examples.mainnet (Examples.healthy 21000 476191000000000)) 137
           Examples.alice Examples.usdc "0x0" "0x" None None []
           _ (requests_of (Examples.transfer_tx 0)));
    reflexivity.
Defined.

(** C10. The warnings [_generate_warnings] returns are, in this order and
    each at most once, a selection of: the failure warning, the high gas
    usage warning, the high-cost warning, the extreme-cost warning, the
    no-transfers warning; these five texts are pairwise different, so no
    other order can occur. The function returns for every input but a gas
    estimate of 10^4300 or more, whose 4301 or more digits the f-string of
    the second warning cannot format: there it raises and emits nothing. *)
Theorem warnings_order success gas_estimate gas_cost_usd asset_changes :
  match _generate_warnings success gas_estimate gas_cost_usd asset_changes with
  | inr warnings =>
      warnings `sublist_of` all_warnings gas_estimate gas_cost_usd
  | inl e =>
      e = ValueError PyInt.str_limit_text /\ PyInt.str_bound <= gas_estimate
  end /\
  NoDup (all_warnings gas_estimate gas_cost_usd).
Proof.
  split; [| apply all_warnings_NoDup].
  destruct (_generate_warnings _ _ _ _) as [e | warnings] eqn:H.
  - eapply generate_warnings_raised, H.
  - apply generate_warnings_returned in H as ->. apply picks_sublist.
Qed.

Example warnings_all_five :
  _generate_warnings false 2000000 (PyFloat.of_int 60) [] =
  inr (all_warnings 2000000 (PyFloat.of_int 60)).
Proof. vm_compute. reflexivity. Qed.

(** * Further properties of the engine *)

(** ** Construction *)

Lemma handles_lookup_Some connect urls chain_id w3 :
  handles connect urls !! chain_id = Some w3 <->
  exists rpc_url,
    urls !! chain_id = Some rpc_url /\ rpc_url <> "" /\ connect rpc_url = inr w3.
Proof.
  unfold handles. rewrite lookup_omap.
  destruct (urls !! chain_id) as [rpc_url |]; cbn [mbind option_bind].
  - destruct rpc_url as [| c s]; cbn [PyStr.truthy].
    + split; [discriminate |]. intros (u & [= <-] & Hne & _). congruence.
    + destruct (connect (String c s)) as [e | w] eqn:Hc.
      * split; [discriminate |]. intros (u & [= <-] & _ & Hu). congruence.
      * split.
        -- intros [= <-]. exists (String c s). repeat split; [discriminate | exact Hc].
        -- intros (u & [= <-] & _ & Hu). congruence.
  - split; [discriminate |]. intros (u & Hu & _). discriminate.
Qed.

Lemma truthy_nonempty s : PyStr.truthy s = true <-> s <> "".
Proof. destruct s; cbn [PyStr.truthy]; split; congruence. Qed.

(** The constructor raises exactly when a chain with a URL has an id that
    the log lines cannot format. *)
Lemma unloggable_true urls :
  unloggable urls = true <->
  exists chain_id rpc_url,
    urls !! chain_id = Some rpc_url /\ rpc_url <> "" /\
    PyInt.str_bound <= Z.abs chain_id.
Proof.
  unfold unloggable. rewrite bool_decide_eq_true, map_Exists_lookup.
  split.
  - intros (chain_id & rpc_url & Hurl & Hne%truthy_nonempty & Hlong%too_long_true).
    eauto.
  - intros (chain_id & rpc_url & Hurl & Hne%truthy_nonempty & Hlong%too_long_true).
    eauto.
Qed.

Lemma unloggable_false urls :
  unloggable urls = false <->
  forall chain_id rpc_url,
    urls !! chain_id = Some rpc_url -> rpc_url <> "" ->
    Z.abs chain_id < PyInt.str_bound.
Proof.
  rewrite <- not_true_iff_false, unloggable_true. split.
  - intros Hno chain_id rpc_url Hurl Hne.
    destruct (Z_lt_le_dec (Z.abs chain_id) PyInt.str_bound) as [| Hbig]; [done |].
    destruct Hno. eauto.
  - intros Hall (chain_id & rpc_url & Hurl & Hne & Hbig).
    specialize (Hall chain_id rpc_url Hurl Hne). lia.
Qed.

(** X1. [__init__] keeps the mapping it is given, and afterwards a chain
    has the handle [w3] exactly when the mapping gives it a URL that is not
    empty and the construction of the provider for that URL returned [w3];
    a chain whose provider raised has no handle, and no chain outside the
    mapping has one. The constructor raises, with the [ValueError] of the
    formatting of its log line, exactly when a chain with a URL that is
    not empty has an id of more than 4300 digits. *)
Theorem init_handles connect urls :
  match init connect urls with
  | inr self =>
      rpc_urls self = urls /\
      dom (w3_instances self) ⊆ dom urls /\
      (forall chain_id w3,
         w3_instances self !! chain_id = Some w3 <->
         exists rpc_url,
           urls !! chain_id = Some rpc_url /\ rpc_url <> "" /\
           connect rpc_url = inr w3) /\
      (forall chain_id rpc_url,
         urls !! chain_id = Some rpc_url -> rpc_url <> "" ->
         Z.abs chain_id < PyInt.str_bound)
  | inl e =>
      e = ValueError PyInt.str_limit_text /\
      exists chain_id rpc_url,
        urls !! chain_id = Some rpc_url /\ rpc_url <> "" /\
        PyInt.str_bound <= Z.abs chain_id
  end.
Proof.
  unfold init. destruct (unloggable urls) eqn:Hlog.
  - split; [reflexivity |]. by apply unloggable_true.
  - cbn [rpc_urls w3_instances].
    split; [reflexivity |]. split; [| split].
    + intros chain_id [w3 Hw3]%elem_of_dom.
      apply handles_lookup_Some in Hw3 as (rpc_url & Hurl & _).
      apply elem_of_dom. eauto.
    + intros chain_id w3. apply handles_lookup_Some.
    + by apply unloggable_false.
Qed.

(** The two outcomes of the constructor. *)
Example init_mainnet :
  init (fun _ => inr (Examples.healthy 21000 1000000000))
    (list_to_map [(1, "https://eth.llamarpc.com"); (137, "https://polygon-rpc.com")])
  = inr (Examples.mainnet (Examples.healthy 21000 1000000000)).
Proof. vm_compute. reflexivity. Qed.

Example init_raises :
  init (fun _ => inr (Examples.healthy 21000 1000000000))
    (<[10 ^ 4300 := "https://eth.llamarpc.com"]> ∅)
  = inl (ValueError PyInt.str_limit_text).
Proof. vm_compute. reflexivity. Qed.

(** ** Requests *)

(** X2. Whatever the input, a call sends either no request at all or
    exactly three: [eth_call] and [estimate_gas] with one and the same
    payload, then [gas_price]. That payload carries the two addresses
    stripped of surrounding whitespace, the call data as given and the
    integer read from the value string. *)
Theorem requests_sent self chain_id from_address to_address value data gas
    gas_price t :
  exists result t',
    simulate_transaction self chain_id from_address to_address value data
      gas gas_price t = (inr result, t') /\
    (t' = t \/
     exists tx,
       t' = t ++ [EthCall tx; EthEstimateGas tx; EthGasPrice] /\
       tx_from tx = PyStr.strip from_address /\
       tx_to tx = PyStr.strip to_address /\
       tx_data tx = data /\
       int_field value = inr (tx_value tx)).
Proof.
  destruct (simulate_transaction_ending self chain_id from_address to_address
              value data gas gas_price t) as (result & t' & Hrun & Hend).
  exists result, t'. split; [exact Hrun |].
  assert (forall from_addr to_addr tx,
            normalize_address from_address = inr from_addr ->
            normalize_address to_address = inr to_addr ->
            build_tx from_addr to_addr value data gas gas_price = inr tx ->
            tx_from tx = PyStr.strip from_address /\
            tx_to tx = PyStr.strip to_address /\
            tx_data tx = data /\
            int_field value = inr (tx_value tx)) as Hpayload.
  { intros from_addr to_addr tx Hfrom Hto Htx.
    rewrite normalize_address_shape in Hfrom, Hto.
    destruct (address_shape (PyStr.strip from_address)); [| discriminate].
    destruct (address_shape (PyStr.strip to_address)); [| discriminate].
    injection Hfrom as <-. injection Hto as <-.
    revert Htx. unfold build_tx. cbn [mbind Exc_bind mret Exc_ret].
    destruct (int_field value) as [e | v]; [discriminate |].
    destruct (optional_int_field gas) as [e | g]; [discriminate |].
    destruct (optional_int_field gas_price) as [e | p]; [discriminate |].
    intros [= <-]. repeat split. }
  destruct Hend; try (left; reflexivity); right; exists tx;
    (split; [reflexivity | eapply Hpayload; eassumption]).
Qed.

(** X3. On a supported chain, with addresses that pass the check and
    numbers that parse, the three queries are always sent, whatever the
    node answers to each of them: a failed [eth_call] or a failed gas
    estimation does not stop the queries after it. *)
Theorem queries_always_sent self chain_id w3 from_address to_address value
    data gas gas_price from_addr to_addr tx t :
  w3_instances self !! chain_id = Some w3 ->
  normalize_address from_address = inr from_addr ->
  normalize_address to_address = inr to_addr ->
  build_tx from_addr to_addr value data gas gas_price = inr tx ->
  exists result,
    simulate_transaction self chain_id from_address to_address value data
      gas gas_price t =
    (inr result, t ++ [EthCall tx; EthEstimateGas tx; EthGasPrice]).
Proof.
  intros Hw3 Hfrom Hto Htx.
  rewrite (supported_run _ _ _ _ _ _ _ _ _ _ _ _ _ Hw3 Hfrom Hto Htx).
  rewrite predict_spec. fold (requests_of tx).
  destruct (Web3Units.from_wei _ Web3Units.ether); [eexists; reflexivity |].
  destruct (_analyze_asset_changes _ _ _ _ _); [eexists; reflexivity |].
  destruct (_generate_warnings _ _ _ _); [eexists; reflexivity |].
  destruct (Web3Units.from_wei _ Web3Units.gwei); eexists; reflexivity.
Qed.

Lemma queries_always_sent_witness :
  exists result,
    simulate_transaction
      (Examples.mainnet (Examples.failing "execution reverted" "boom" 1000000000))
      1 Examples.alice Examples.usdc "0x0" "0x" None None [] =
    (inr result,
     [] ++ [EthCall (Examples.transfer_tx 0);
            EthEstimateGas (Examples.transfer_tx 0); EthGasPrice]).
Proof.
  apply (queries_always_sent
           (Examples.mainnet (Examples.failing "execution reverted" "boom" 1000000000))
           1 (Examples.failing "execution reverted" "boom" 1000000000)
           Examples.alice Examples.usdc "0x0" "0x" None None
           Examples.alice Examples.usdc); reflexivity.
Defined.

Lemma optional_int_field_inl x e :
  optional_int_field x = inl e ->
  exists s, x = Some s /\ PyStr.truthy s = true /\ int_field s = inl e.
Proof.
  destruct x as [s |]; [| discriminate]. cbn [optional_int_field].
  destruct (PyStr.truthy s) eqn:Hs; [| discriminate].
  cbn [mbind Exc_bind mret Exc_ret].
  destruct (int_field s) as [e' |] eqn:Hi; [| discriminate].
  intros [= <-]. eauto.
Qed.

Lemma int_field_inl_class x e : int_field x = inl e -> exn_class e = "ValueError".
Proof.
  unfold int_field, PyInt.int.
  destruct (PyStr.startswith "0x" x);
    match goal with
    | |- context [PyInt.parse ?b ?l] => destruct (PyInt.parse b l)
    end; intros [= <-]; reflexivity.
Qed.

Lemma rejected_number_build_tx from_addr to_addr value data gas gas_price e :
  rejected_number value gas gas_price = Some e ->
  build_tx from_addr to_addr value data gas gas_price = inl e /\
  exn_class e = "ValueError".
Proof.
  unfold rejected_number, build_tx. cbn [mbind Exc_bind mret Exc_ret].
  destruct (int_field value) as [e0 | v] eqn:Hv.
  { intros [= <-]. split; [reflexivity | eapply int_field_inl_class, Hv]. }
  destruct (optional_int_field gas) as [e0 | g] eqn:Hg.
  { intros [= <-]. split; [reflexivity |].
    apply optional_int_field_inl in Hg as (s & _ & _ & Hs).
    eapply int_field_inl_class, Hs. }
  destruct (optional_int_field gas_price) as [e0 | p] eqn:Hp; [| discriminate].
  intros [= <-]. split; [reflexivity |].
  apply optional_int_field_inl in Hp as (s & _ & _ & Hs).
  eapply int_field_inl_class, Hs.
Qed.

(** X4. On a supported chain with valid addresses, when the value, or a
    gas limit or gas price that is given and not empty, is not a number
    [int] accepts, the call returns [success = False] with the error
    ["Simulation failed: "] followed by the text of the [ValueError] that
    [int] raised for the first of them, and sends no request. *)
Theorem invalid_number_rejected self chain_id w3 from_address to_address value
    data gas gas_price from_addr to_addr e t :
  w3_instances self !! chain_id = Some w3 ->
  normalize_address from_address = inr from_addr ->
  normalize_address to_address = inr to_addr ->
  rejected_number value gas gas_price = Some e ->
  exists result,
    simulate_transaction self chain_id from_address to_address value data
      gas gas_price t = (inr result, t) /\
    exn_class e = "ValueError" /\
    result !! "success" = Some (VBool false) /\
    result !! "error" = Some (VStr ("Simulation failed: " +:+ exn_str e)) /\
    result !! "gas_used" = None.
Proof.
  intros Hw3 Hfrom Hto Hbad.
  apply (rejected_number_build_tx from_addr to_addr value data) in Hbad
    as [Htx Hclass].
  eexists. split.
  - unfold simulate_transaction, simulate_body, mbind at 1, M_bind, attempt.
    rewrite Hw3, Hfrom, Hto. cbn [mbind Exc_bind mret Exc_ret].
    unfold mbind, M_bind, lift. rewrite Htx. reflexivity.
  - repeat split. exact Hclass.
Qed.

Lemma invalid_number_rejected_witness :
  exists result,
    simulate_transaction (Examples.mainnet (Examples.healthy 21000 1000000000))
      1 Examples.alice Examples.usdc "0x0" "0x" (Some "21000 gas") None [] =
    (inr result, []) /\
    exn_class (ValueError "invalid literal for int() with base 10: '21000 gas'")
    = "ValueError" /\
    result !! "success" = Some (VBool false) /\
    result !! "error" =
      Some (VStr ("Simulation failed: "
                  +:+ exn_str
                        (ValueError
                           "invalid literal for int() with base 10: '21000 gas'"))) /\
    result !! "gas_used" = None.
Proof.
  apply (invalid_number_rejected
           (Examples.mainnet (Examples.healthy 21000 1000000000)) 1
           (Examples.healthy 21000 1000000000)
           Examples.alice Examples.usdc "0x0" "0x" (Some "21000 gas") None
           Examples.alice Examples.usdc
           (ValueError "invalid literal for int() with base 10: '21000 gas'"));
    reflexivity.
Defined.

(** A value written with decimal digits of another script is a number. *)
Example arabic_indic_value_accepted :
  rejected_number "٣" None None = None /\
  exists result,
    simulate_transaction (Examples.mainnet (Examples.healthy 21000 1000000000))
      1 Examples.alice Examples.usdc "٣" "0x" None None [] =
    (inr result, requests_of (Examples.transfer_tx 3)) /\
    result !! "success" = Some (VBool true).
Proof. split; [reflexivity |]. eexists. split; reflexivity. Qed.

Lemma optional_int_field_stored x stored :
  optional_int_field x = inr stored -> optional_field_stored x stored.
Proof.
  destruct x as [[| c s] |]; cbn [optional_int_field optional_field_stored PyStr.truthy].
  - intros [= <-]. reflexivity.
  - cbn [mbind Exc_bind mret Exc_ret].
    destruct (int_field (String c s)) as [e | n]; [discriminate |].
    intros [= <-]. eauto.
  - intros [= <-]. reflexivity.
Qed.

(** X5. In the payload, [gas] and [gasPrice] are left out when the
    argument is [None] and also when it is the empty string; otherwise
    they hold the integer read from the argument, in base 16 behind the
    prefix [0x] and in base 10 without it. *)
Theorem optional_fields_of_payload from_addr to_addr value data gas gas_price tx :
  build_tx from_addr to_addr value data gas gas_price = inr tx ->
  optional_field_stored gas (tx_gas tx) /\
  optional_field_stored gas_price (tx_gasPrice tx).
Proof.
  unfold build_tx. cbn [mbind Exc_bind mret Exc_ret].
  destruct (int_field value) as [e | v]; [discriminate |].
  destruct (optional_int_field gas) as [e | g] eqn:Hg; [discriminate |].
  destruct (optional_int_field gas_price) as [e | p] eqn:Hp; [discriminate |].
  intros [= <-]. cbn [tx_gas tx_gasPrice].
  split; apply optional_int_field_stored; assumption.
Qed.

Lemma optional_fields_of_payload_witness :
  optional_field_stored (Some "0x5208") (Some 21000) /\
  optional_field_stored (Some "") None.
Proof.
  apply (optional_fields_of_payload Examples.alice Examples.usdc "0x0" "0x"
           (Some "0x5208") (Some "")
           {| tx_from := Examples.alice; tx_to := Examples.usdc; tx_value := 0;
              tx_data := "0x"; tx_gas := Some 21000; tx_gasPrice := None |}).
  reflexivity.
Defined.

(** ** The gas price step *)

(** X6. When the gas price query fails, and the amounts handed to
    [from_wei] are within its range, the result reports a gas price of
    exactly 20.0 gwei, the fallback of 20 gwei converted back. *)
Theorem gas_price_fallback self chain_id w3 from_address to_address value data
    gas gas_price from_addr to_addr tx e t :
  w3_instances self !! chain_id = Some w3 ->
  normalize_address from_address = inr from_addr ->
  normalize_address to_address = inr to_addr ->
  build_tx from_addr to_addr value data gas gas_price = inr tx ->
  gas_price_reply w3 = inl e ->
  0 <= gas_estimate_of w3 tx * 20000000000 <= Web3Units.MAX_WEI ->
  tx_value tx <= Web3Units.MAX_WEI ->
  exists result,
    simulate_transaction self chain_id from_address to_address value data
      gas gas_price t = (inr result, t ++ requests_of tx) /\
    result !! "gas_price_gwei" = Some (VFloat (PyFloat.of_int 20)) /\
    result !! "gas_used" = Some (VInt (gas_estimate_of w3 tx)).
Proof.
  intros Hw3 Hfrom Hto Htx Hgp Hcost Hv.
  assert (current_gas_price_of w3 = 20000000000) as Hp
    by (unfold current_gas_price_of; rewrite Hgp; reflexivity).
  eexists. split.
  - eapply completed_run; eauto.
    + rewrite Hp. apply from_wei_in_range, Hcost.
    + apply analyze_asset_changes_in_range, Hv.
    + apply generate_warnings_inr. pose proof MAX_WEI_lt_str_bound. lia.
    + rewrite Hp. reflexivity.
  - split; reflexivity.
Qed.

Lemma gas_price_fallback_witness :
  exists result,
    simulate_transaction
      (Examples.mainnet Nodes.price_down)
      1 Examples.alice Examples.usdc "0x0" "0x" None None [] =
    (inr result, [] ++ requests_of (Examples.transfer_tx 0)) /\
    result !! "gas_price_gwei" = Some (VFloat (PyFloat.of_int 20)) /\
    result !! "gas_used" = Some (VInt 21000).
Proof.
  eapply (gas_price_fallback (Examples.mainnet Nodes.price_down) 1
            Nodes.price_down Examples.alice Examples.usdc "0x0" "0x"
            None None Examples.alice Examples.usdc (Examples.transfer_tx 0)
            (Exn "ConnectionError" "timed out") []);
    first [reflexivity | split; vm_compute; discriminate | vm_compute; discriminate].
Defined.

Lemma predict_answering_gas_price w3 e chain_id from_addr to_addr tx data t :
  gas_price_reply w3 = inl e ->
  predict w3 chain_id from_addr to_addr tx data t =
  predict (answering_gas_price w3 20000000000) chain_id from_addr to_addr tx
    data t.
Proof.
  intros Hgp. rewrite !predict_spec.
  unfold gas_estimate_of, current_gas_price_of, simulation_success_of,
    error_msg_of, call_error_of, _analyze_asset_changes.
  cbn [answering_gas_price call_reply estimate_gas_reply gas_price_reply].
  rewrite Hgp. reflexivity.
Qed.

(** X7. A failure of the gas price query is not reported: the result and
    the requests are those of a run in which the node answered 20 gwei,
    so neither [success] nor [error] nor the warnings show that the price
    is a fallback. *)
Theorem gas_price_failure_is_silent self self' chain_id w3 e from_address
    to_address value data gas gas_price t :
  w3_instances self !! chain_id = Some w3 ->
  gas_price_reply w3 = inl e ->
  w3_instances self' !! chain_id = Some (answering_gas_price w3 20000000000) ->
  simulate_transaction self chain_id from_address to_address value data gas
    gas_price t =
  simulate_transaction self' chain_id from_address to_address value data gas
    gas_price t.
Proof.
  intros Hw3 Hgp Hw3'.
  unfold simulate_transaction, simulate_body, mbind at 1 3, M_bind, attempt.
  rewrite Hw3, Hw3'.
  destruct (normalize_address from_address) as [| from_addr]; [reflexivity |].
  destruct (normalize_address to_address) as [| to_addr]; [reflexivity |].
  cbn [mbind Exc_bind mret Exc_ret]. unfold mbind, M_bind, lift.
  destruct (build_tx from_addr to_addr value data gas gas_price) as [| tx];
    [reflexivity |].
  rewrite (predict_answering_gas_price w3 e) by exact Hgp. reflexivity.
Qed.

Lemma gas_price_failure_is_silent_witness :
  simulate_transaction
    (Examples.mainnet Nodes.price_down)
    1 Examples.alice Examples.usdc "0x0" "0x" None None [] =
  simulate_transaction (Examples.mainnet (Examples.healthy 21000 20000000000))
    1 Examples.alice Examples.usdc "0x0" "0x" None None [].
Proof.
  apply (gas_price_failure_is_silent _ _ 1 Nodes.price_down
           (Exn "ConnectionError" "timed out")); reflexivity.
Defined.

(** ** [success] and [error] *)

(** X8. In every result, [success = False] comes with an [error] that is
    a string, never [None]. *)
Theorem failure_has_error_text self chain_id from_address to_address value
    data gas gas_price t result t' :
  simulate_transaction self chain_id from_address to_address value data gas
    gas_price t = (inr result, t') ->
  result !! "success" = Some (VBool false) ->
  exists msg, result !! "error" = Some (VStr msg).
Proof.
  intros Hrun Hs. apply ending_unique in Hrun.
  destruct Hrun; try (eexists; reflexivity).
  rewrite full_result_success in Hs. injection Hs as Hs.
  rewrite full_result_error.
  unfold simulation_success_of in Hs. unfold error_msg_of, call_error_of.
  destruct (call_reply w3 tx) as [call_error |]; [| discriminate].
  destruct (estimate_gas_reply w3 tx) as [gas_error |]; [| eauto].
  destruct (negb _); eauto.
Qed.

Lemma failure_has_error_text_witness :
  exists msg,
    failure_result "Chain 999 not supported" 999 !! "error" = Some (VStr msg).
Proof.
  apply (failure_has_error_text
           (Examples.mainnet (Examples.healthy 21000 1000000000)) 999
           Examples.alice Examples.usdc "0x0" "0x" None None [] _ []);
    reflexivity.
Defined.

(** X9. In a result of the full pipeline, [success] is true exactly when
    [eth_call] succeeded, and [error] is [None] exactly when [eth_call]
    and the gas estimation both succeeded; so a result can have
    [success = True] together with a gas estimation error. *)
Theorem success_and_error_of_replies self chain_id from_address to_address
    value data gas gas_price t result t' g :
  simulate_transaction self chain_id from_address to_address value data gas
    gas_price t = (inr result, t') ->
  result !! "gas_used" = Some g ->
  exists w3 tx,
    w3_instances self !! chain_id = Some w3 /\
    t' = t ++ requests_of tx /\
    (result !! "success" = Some (VBool true) <->
     exists output, call_reply w3 tx = inr output) /\
    (result !! "error" = Some VNone <->
     (exists output, call_reply w3 tx = inr output) /\
     (exists reported, estimate_gas_reply w3 tx = inr reported)).
Proof.
  intros Hrun Hg. apply ending_unique in Hrun.
  destruct Hrun; try discriminate Hg.
  exists w3, tx. split; [assumption |]. split; [reflexivity |].
  rewrite full_result_success, full_result_error. clear - w3 tx.
  unfold simulation_success_of, error_msg_of, call_error_of.
  destruct (call_reply w3 tx) as [call_error | output];
    destruct (estimate_gas_reply w3 tx) as [gas_error | reported];
    cbn [truthy_opt negb of_optional_str];
    try destruct (negb (PyStr.truthy (exn_str call_error)));
    cbn [of_optional_str];
    (split; split; intros;
     repeat match goal with
       | H : _ /\ _ |- _ => destruct H
       | H : ex _ |- _ => destruct H
       end;
     try discriminate; try reflexivity; eauto).
Qed.

Lemma success_and_error_of_replies_witness :
  let w3 := Nodes.estimate_down in
  exists result,
    simulate_transaction (Examples.mainnet w3) 1 Examples.alice Examples.usdc
      "0x0" "0x" None None [] =
    (inr result, requests_of (Examples.transfer_tx 0)) /\
    result !! "success" = Some (VBool true) /\
    result !! "error" = Some (VStr "Gas estimation failed: out of gas") /\
    exists w3' tx,
      w3_instances (Examples.mainnet w3) !! 1 = Some w3' /\
      requests_of (Examples.transfer_tx 0) = [] ++ requests_of tx /\
      (result !! "success" = Some (VBool true) <->
       exists output, call_reply w3' tx = inr output) /\
      (result !! "error" = Some VNone <->
       (exists output, call_reply w3' tx = inr output) /\
       (exists reported, estimate_gas_reply w3' tx = inr reported)).
Proof.
  eexists. split; [reflexivity |]. split; [reflexivity |]. split; [reflexivity |].
  eapply (success_and_error_of_replies _ 1 Examples.alice Examples.usdc "0x0"
            "0x" None None []); reflexivity.
Defined.

(** ** Warnings and the fields they are computed from *)

Lemma generate_warnings_elem w success gas_estimate gas_cost_usd asset_changes
    warnings :
  _generate_warnings success gas_estimate gas_cost_usd asset_changes
  = inr warnings ->
  w ∈ warnings <->
  (success = false /\ w = warning_fail) \/
  (1000000 < gas_estimate /\ w = warning_high_gas gas_estimate) \/
  (PyFloat.gt_int gas_cost_usd 10 = true /\ w = warning_high_cost gas_cost_usd) \/
  (PyFloat.gt_int gas_cost_usd 50 = true /\ w = warning_extreme_cost) \/
  (asset_changes = [] /\ w = warning_no_transfers).
Proof.
  intros ->%generate_warnings_returned.
  rewrite !elem_of_app, !elem_of_pick.
  rewrite negb_true_iff, Z.ltb_lt, Nat.eqb_eq, length_zero_iff_nil.
  tauto.
Qed.

(** X10. [_generate_warnings] returns exactly when the gas estimate is
    below 10^4300; from there on the f-string of the high gas usage
    warning, which cannot format more than 4300 digits, raises
    [ValueError]. When it returns, it emits the failure warning
    exactly when [success] is false, the high gas usage warning exactly
    when the gas estimate is above 1,000,000 (1,000,000 itself does not
    trigger it), and the no-transfers warning exactly when there is no
    asset change. *)
Theorem warnings_of_tests success gas_estimate gas_cost_usd asset_changes :
  match _generate_warnings success gas_estimate gas_cost_usd asset_changes with
  | inr warnings =>
      gas_estimate < PyInt.str_bound /\
      (warning_fail ∈ warnings <-> success = false) /\
      (warning_high_gas gas_estimate ∈ warnings <-> 1000000 < gas_estimate) /\
      (warning_no_transfers ∈ warnings <-> asset_changes = [])
  | inl e =>
      PyInt.str_bound <= gas_estimate /\ e = ValueError PyInt.str_limit_text
  end.
Proof.
  destruct (generate_warnings_cases success gas_estimate gas_cost_usd
              asset_changes) as [[Hgas [warnings H]] | [Hgas H]]; rewrite H.
  2: by split.
  split; [exact Hgas |].
  pose proof (all_warnings_NoDup gas_estimate gas_cost_usd) as Hnd.
  unfold all_warnings in Hnd.
  rewrite !NoDup_cons, !not_elem_of_cons in Hnd.
  rewrite !(generate_warnings_elem _ _ _ _ _ _ H).
  intuition congruence.
Qed.

Example high_gas_warning_text :
  _generate_warnings true 1000001 (PyFloat.of_int 0)
    [native_transfer Examples.alice Examples.usdc 1
       (Web3Units.Decimal 1 Web3Units.ether)]
  = inr [warning_high_gas 1000001] /\
  warning_high_gas 1000001 = high_gas_text "1,000,001".
Proof. split; vm_compute; reflexivity. Qed.

Example no_high_gas_warning_at_the_threshold :
  _generate_warnings true 1000000 (PyFloat.of_int 0) [] = inr [warning_no_transfers].
Proof. vm_compute. reflexivity. Qed.

Example warnings_raise_on_long_estimate :
  _generate_warnings true (10 ^ 4300) (PyFloat.of_int 0) []
  = inl (ValueError PyInt.str_limit_text).
Proof. vm_compute. reflexivity. Qed.

(** X11. In a result of the full pipeline the warnings agree with the
    fields [success], [gas_used] and [asset_changes] of the same result:
    the failure warning is there exactly when [success] is false, the high
    gas usage warning exactly when [gas_used] is above 1,000,000, and the
    no-transfers warning exactly when [asset_changes] is empty. *)
Theorem warnings_agree_with_fields self chain_id from_address to_address value
    data gas gas_price t result t' warnings :
  simulate_transaction self chain_id from_address to_address value data gas
    gas_price t = (inr result, t') ->
  result !! "warnings" = Some (VStrs warnings) ->
  exists success gas_used asset_changes,
    result !! "success" = Some (VBool success) /\
    result !! "gas_used" = Some (VInt gas_used) /\
    result !! "asset_changes" = Some (VChanges asset_changes) /\
    (warning_fail ∈ warnings <-> success = false) /\
    (warning_high_gas gas_used ∈ warnings <-> 1000000 < gas_used) /\
    (warning_no_transfers ∈ warnings <-> asset_changes = []).
Proof.
  intros Hrun Hw. apply ending_unique in Hrun.
  destruct Hrun; try discriminate Hw.
  rewrite full_result_warnings in Hw. injection Hw as <-.
  eexists _, _, _. split; [reflexivity |]. split; [reflexivity |].
  split; [reflexivity |].
  pose proof (all_warnings_NoDup (gas_estimate_of w3 tx)
                (gas_cost_usd_of chain_id gas_cost_eth)) as Hnd.
  unfold all_warnings in Hnd.
  rewrite !NoDup_cons, !not_elem_of_cons in Hnd.
  match goal with
  | H : _generate_warnings _ _ _ _ = inr _ |- _ =>
      rewrite !(generate_warnings_elem _ _ _ _ _ _ H)
  end.
  intuition congruence.
Qed.

Lemma warnings_agree_with_fields_witness :
  exists success gas_used asset_changes,
    full_result false 21000
      (Web3Units.to_float (Web3Units.Decimal 21000000000000 Web3Units.ether))
      (PyFloat.round4
         (gas_cost_usd_of 1 (Web3Units.Decimal 21000000000000 Web3Units.ether)))
      (Web3Units.to_float (Web3Units.Decimal 1000000000 Web3Units.gwei))
      (Some "execution reverted") []
      [warning_fail; warning_no_transfers] 1 !! "success"
      = Some (VBool success) /\
    full_result false 21000
      (Web3Units.to_float (Web3Units.Decimal 21000000000000 Web3Units.ether))
      (PyFloat.round4
         (gas_cost_usd_of 1 (Web3Units.Decimal 21000000000000 Web3Units.ether)))
      (Web3Units.to_float (Web3Units.Decimal 1000000000 Web3Units.gwei))
      (Some "execution reverted") []
      [warning_fail; warning_no_transfers] 1 !! "gas_used"
      = Some (VInt gas_used) /\
    full_result false 21000
      (Web3Units.to_float (Web3Units.Decimal 21000000000000 Web3Units.ether))
      (PyFloat.round4
         (gas_cost_usd_of 1 (Web3Units.Decimal 21000000000000 Web3Units.ether)))
      (Web3Units.to_float (Web3Units.Decimal 1000000000 Web3Units.gwei))
      (Some "execution reverted") []
      [warning_fail; warning_no_transfers] 1 !! "asset_changes"
      = Some (VChanges asset_changes) /\
    (warning_fail ∈ [warning_fail; warning_no_transfers] <-> success = false) /\
    (warning_high_gas gas_used ∈ [warning_fail; warning_no_transfers]
     <-> 1000000 < gas_used) /\
    (warning_no_transfers ∈ [warning_fail; warning_no_transfers]
     <-> asset_changes = []).
Proof.
  apply (warnings_agree_with_fields
           (Examples.mainnet
              (Examples.failing "execution reverted" "boom" 1000000000))
           1 Examples.alice Examples.usdc "0x0" "0xa9059cbb" None None []
           _ ([] ++ requests_of
                      {| tx_from := Examples.alice; tx_to := Examples.usdc;
                         tx_value := 0; tx_data := "0xa9059cbb";
                         tx_gas := None; tx_gasPrice := None |}));
    reflexivity.
Defined.

(** ** Prices and costs *)

(** X12. [_get_eth_price] is 600 for chain 56, 1.0 for chain 137, 40 for
    chain 43114 and 3000 for every other chain, listed or not. *)
Theorem eth_price_of_chain chain_id :
  _get_eth_price chain_id =
  if decide (chain_id = 56) then PyFloat.of_int 600
  else if decide (chain_id = 137) then PyFloat.of_int 1
  else if decide (chain_id = 43114) then PyFloat.of_int 40
  else PyFloat.of_int 3000.
Proof.
  unfold _get_eth_price, prices. cbn [list_to_map foldr fst snd uncurry].
  rewrite !lookup_insert, lookup_empty.
  repeat case_decide; subst; first [reflexivity | lia].
Qed.

Lemma eth_price_finite chain_id :
  exists m e, _get_eth_price chain_id = S754_finite false m e.
Proof.
  unfold _get_eth_price, prices. cbn [list_to_map foldr fst snd uncurry].
  rewrite !lookup_insert, lookup_empty.
  repeat case_decide; eexists _, _; reflexivity.
Qed.

Lemma mul_nonneg x m e :
  PyFloat.nonneg x = true ->
  PyFloat.nonneg (PyFloat.mul x (S754_finite false m e)) = true.
Proof.
  unfold PyFloat.mul, SFmul.
  destruct x as [[] | [] | | [] mx ex]; try discriminate; intros _;
    try reflexivity.
  cbn [xorb]. apply binary_round_aux_nonneg. lia.
Qed.

Lemma round_half_even_nonneg num den :
  0 <= num -> 0 < den -> 0 <= PyFloat.round_half_even num den.
Proof.
  intros Hn Hd. unfold PyFloat.round_half_even.
  assert (0 <= num / den) by (apply Z.div_pos; lia).
  destruct (_ ?= _); [destruct (Z.even _) | |]; lia.
Qed.

Lemma scaled_nonneg m e scale : 0 <= scale -> 0 <= PyFloat.scaled m e scale.
Proof.
  intros Hs. unfold PyFloat.scaled.
  destruct (Z.leb_spec 0 e).
  - assert (0 <= 2 ^ e) by (apply Z.pow_nonneg; lia). nia.
  - apply round_half_even_nonneg; [nia |]. apply Z.pow_pos_nonneg; lia.
Qed.

Lemma round4_nonneg x :
  PyFloat.nonneg x = true -> PyFloat.nonneg (PyFloat.round4 x) = true.
Proof.
  destruct x as [s | s | | s m e]; cbn [PyFloat.round4]; try (intros H; exact H).
  cbn [PyFloat.nonneg]. intros ->%negb_true_iff.
  pose proof (scaled_nonneg m e 10000 ltac:(lia)) as Hk.
  destruct (Z.eqb_spec (PyFloat.scaled m e 10000) 0); [reflexivity |].
  apply of_quot_nonneg; lia.
Qed.

Lemma from_wei_to_float_nonneg n unit x :
  0 < unit ->
  Web3Units.from_wei n unit = inr x ->
  PyFloat.nonneg (Web3Units.to_float x) = true.
Proof.
  intros Hu [Hn ->]%from_wei_inr.
  destruct (Z.eqb_spec n 0); [reflexivity |].
  cbn [Web3Units.to_float]. apply of_quot_nonneg; lia.
Qed.

(** X13. Every float in a result, that is [gas_cost_eth], [gas_cost_usd]
    and [gas_price_gwei], is zero or positive: never negative and never a
    NaN. *)
Theorem float_fields_nonneg self chain_id from_address to_address value data
    gas gas_price t result t' key x :
  simulate_transaction self chain_id from_address to_address value data gas
    gas_price t = (inr result, t') ->
  result !! key = Some (VFloat x) ->
  PyFloat.nonneg x = true.
Proof.
  intros Hrun Hx. apply ending_unique in Hrun.
  destruct Hrun as [| | | | | |
    w3 from_addr to_addr tx gas_cost_eth asset_changes warnings gas_price_gwei
      Hw3 Hfrom Hto Htx H1 H2 H4 H3].
  1-6: revert Hx; unfold failure_result;
       rewrite !lookup_insert, lookup_empty; repeat case_decide; discriminate.
  revert Hx. unfold full_result. rewrite !lookup_insert, lookup_empty.
  repeat case_decide; try discriminate; intros Hx; injection Hx as Hx;
    try subst x.
  - eapply from_wei_to_float_nonneg; [| exact H1]. reflexivity.
  - apply round4_nonneg. unfold gas_cost_usd_of.
    destruct (eth_price_finite chain_id) as (m & e & ->).
    apply mul_nonneg. eapply from_wei_to_float_nonneg; [| exact H1]. reflexivity.
  - eapply from_wei_to_float_nonneg; [| exact H3]. reflexivity.
  - destruct (error_msg_of w3 tx); discriminate Hx.
Qed.

Lemma float_fields_nonneg_witness :
  PyFloat.nonneg
    (PyFloat.round4
       (gas_cost_usd_of 137
          (Web3Units.Decimal 10000011000000000000 Web3Units.ether))) = true.
Proof.
  eapply (float_fields_nonneg
            (Examples.mainnet (Examples.healthy 21000 476191000000000)) 137
            Examples.alice Examples.usdc "0x0" "0x" None None []
            _ _ "gas_cost_usd");
    reflexivity.
Defined.

(** * The service *)

(** ** Supported chains *)

Lemma RPC_URLS_keys environ :
  (Main.RPC_URLS environ).*1 = [1; 56; 137; 42161; 10; 8453; 43114].
Proof. reflexivity. Qed.

Lemma RPC_URLS_NoDup environ : NoDup (Main.RPC_URLS environ).*1.
Proof.
  rewrite RPC_URLS_keys.
  repeat (apply NoDup_cons; split;
          [rewrite ?not_elem_of_cons, elem_of_nil; lia |]).
  apply NoDup_nil_2.
Qed.

Lemma supported_chains_elem environ chain_id :
  chain_id ∈ Main.supported_chains environ <->
  exists url,
    (list_to_map (Main.RPC_URLS environ) : gmap Z string) !! chain_id = Some url /\
    url <> "".
Proof.
  unfold Main.supported_chains. rewrite list_elem_of_omap. split.
  - intros ([c url] & Hin & Hf). exists url.
    destruct url as [| a u]; [discriminate |]. injection Hf as ->.
    split; [| discriminate].
    apply elem_of_list_to_map; [apply RPC_URLS_NoDup | exact Hin].
  - intros (url & Hl & Hne). exists (chain_id, url). split.
    + apply elem_of_list_to_map in Hl; [exact Hl | apply RPC_URLS_NoDup].
    + destruct url; [congruence | reflexivity].
Qed.

Lemma omap_keys_sublist (urls : list (Z * string)) :
  omap (fun '(chain_id, url) => if PyStr.truthy url then Some chain_id else None)
    urls `sublist_of` urls.*1.
Proof.
  induction urls as [| [chain_id url] urls IH]; [apply sublist_nil |].
  destruct url as [| a u]; simpl;
    [apply sublist_cons | apply sublist_skip]; exact IH.
Qed.

(** X14. The list of supported chains is taken, in this order, from 1, 56,
    137, 42161, 10, 8453, 43114; a chain is on the list exactly when the URL
    configured for it, from the environment or the default, is not empty. *)
Theorem supported_chains_listed environ :
  Main.supported_chains environ `sublist_of` [1; 56; 137; 42161; 10; 8453; 43114] /\
  forall chain_id,
    chain_id ∈ Main.supported_chains environ <->
    exists url,
      (chain_id, url) ∈ Main.RPC_URLS environ /\ url <> "".
Proof.
  split.
  - rewrite <- (RPC_URLS_keys environ). apply omap_keys_sublist.
  - intros chain_id. rewrite supported_chains_elem.
    split; intros (url & H & Hne); exists url; (split; [| exact Hne]).
    + apply elem_of_list_to_map in H; [exact H | apply RPC_URLS_NoDup].
    + apply elem_of_list_to_map; [apply RPC_URLS_NoDup | exact H].
Qed.





Example unlisted_chain_error_text :
  (if PyInt.too_long 56
   then "Simulation failed: " +:+ PyInt.str_limit_text
   else "Chain " +:+ pretty 56 +:+ " not supported") = "Chain 56 not supported".
Proof. vm_compute. reflexivity. Qed.

(** ** The handler *)

Section Handler.
Variable validate : string -> pyval -> option pyval.
Variable validation_error : list string -> exn.
Hypothesis validate_well_typed :
  forall name v, Main.well_typed name v = true -> validate name v = Some v.

(** Fields that are given and well typed are stored, the others take
    their defaults. *)
Lemma fill_given (fields : list (string * option pyval))
    (kwargs : gmap string pyval) :
  (forall name fallback, (name, fallback) ∈ fields ->
     match kwargs !! name with
     | Some v => Main.well_typed name v = true
     | None => is_Some fallback
     end) ->
  Main.fill validate fields kwargs =
  ([], list_to_map
         (omap (fun '(name, fallback) =>
                  match kwargs !! name with
                  | Some v => Some (name, v)
                  | None => pair name <$> fallback
                  end) fields)).
Proof.
  induction fields as [| [name fallback] fields IH]; intros Hok; [reflexivity |].
  cbn [Main.fill]. rewrite IH by (intros; apply Hok; right; assumption).
  specialize (Hok name fallback ltac:(left)).
  cbn [omap list_omap].
  destruct (kwargs !! name) as [v |].
  - rewrite (validate_well_typed _ _ Hok). reflexivity.
  - destruct Hok as [d ->]. reflexivity.
Qed.

Ltac each_field Hin :=
  repeat (apply elem_of_cons in Hin as [Hin | Hin];
          [injection Hin as -> ->; first [exact eq_refl | eexists; reflexivity] |]);
  apply elem_of_nil in Hin as [].

Lemma response_of_failure now msg chain_id :
  Main.SimulationResponse validate validation_error
    (<["timestamp" := VStr (now +:+ "Z")]> (failure_result msg chain_id)) =
  inr (<["timestamp" := VStr (now +:+ "Z")]>
         (failure_result msg chain_id ∪ Main.response_defaults)).
Proof.
  unfold Main.SimulationResponse. rewrite fill_given.
  - reflexivity.
  - intros name fallback Hin. unfold Main.response_fields in Hin.
    each_field Hin.
Qed.

Lemma response_of_full now success gas_used gas_cost_eth gas_cost_usd
    gas_price_gwei error asset_changes warnings chain_id :
  Main.SimulationResponse validate validation_error
    (<["timestamp" := VStr (now +:+ "Z")]>
       (full_result success gas_used gas_cost_eth gas_cost_usd gas_price_gwei
          error asset_changes warnings chain_id)) =
  inr (<["timestamp" := VStr (now +:+ "Z")]>
         (full_result success gas_used gas_cost_eth gas_cost_usd gas_price_gwei
            error asset_changes warnings chain_id ∪ Main.response_defaults)).
Proof.
  unfold Main.SimulationResponse. rewrite fill_given.
  - reflexivity.
  - intros name fallback Hin. unfold Main.response_fields in Hin.
    destruct error; each_field Hin.
Qed.

(** X17. When the validation of the response model stores every value
    that already has the type of its field, the handler answers with the
    HTTP error 500 exactly when the chain id of the request has more than
    4300 digits: its log line cannot be formatted, the detail is
    ["Simulation failed: "] followed by the text of that [ValueError], and
    the engine is not called. Every other request is answered with a
    response: the engine's result, completed with the defaults of the
    model for the fields the result lacks, and the timestamp. *)
Theorem handler_returns_response now engine request t :
  exists result t',
    simulate_transaction engine (Main.chain_id request)
      (Main.from_address request) (Main.to_address request)
      (Main.value request) (Main.data request) (Main.gas request)
      (Main.gas_price request) t = (inr result, t') /\
    Main.simulate_transaction_handler validate validation_error now engine
      request t =
    if PyInt.too_long (Main.chain_id request)
    then (inr (Main.HTTPException 500
                 ("Simulation failed: " +:+ PyInt.str_limit_text)), t)
    else (inr (Main.Returned
                 (<["timestamp" := VStr (now +:+ "Z")]>
                    (result ∪ Main.response_defaults))), t').
Proof.
  destruct (simulate_transaction_ending engine (Main.chain_id request)
              (Main.from_address request) (Main.to_address request)
              (Main.value request) (Main.data request) (Main.gas request)
              (Main.gas_price request) t) as (result & t' & Hrun & Hend).
  exists result, t'. split; [exact Hrun |].
  unfold Main.simulate_transaction_handler, mbind, M_bind, attempt, lift,
    PyInt.str.
  destruct (PyInt.too_long (Main.chain_id request)); [reflexivity |].
  cbv beta iota zeta. rewrite Hrun.
  destruct Hend; rewrite ?response_of_failure, ?response_of_full; reflexivity.
Qed.

(** X18. For a chain without handle and with an id of at most 4300
    digits the response of the handler reports [success = False], the
    error, and the defaults for everything else: [gas_used = 0], costs and
    gas price 0.0, no asset changes, no warnings and the simulation method
    ["unknown"]. For a longer chain id the handler answers with the HTTP
    error 500. In both cases no request is sent. *)
Theorem handler_defaults_on_unsupported_chain now engine request t :
  w3_instances engine !! Main.chain_id request = None ->
  if PyInt.too_long (Main.chain_id request)
  then
    Main.simulate_transaction_handler validate validation_error now engine
      request t =
    (inr (Main.HTTPException 500
            ("Simulation failed: " +:+ PyInt.str_limit_text)), t)
  else
    exists response,
      Main.simulate_transaction_handler validate validation_error now engine
        request t = (inr (Main.Returned response), t) /\
      response !! "success" = Some (VBool false) /\
      response !! "error" =
        Some (VStr ("Chain " +:+ pretty (Main.chain_id request)
                    +:+ " not supported")) /\
      response !! "gas_used" = Some (VInt 0) /\
      response !! "gas_cost_eth" = Some (VFloat (PyFloat.of_int 0)) /\
      response !! "gas_cost_usd" = Some (VFloat (PyFloat.of_int 0)) /\
      response !! "gas_price_gwei" = Some (VFloat (PyFloat.of_int 0)) /\
      response !! "asset_changes" = Some (VChanges []) /\
      response !! "warnings" = Some (VStrs []) /\
      response !! "simulation_method" = Some (VStr "unknown").
Proof.
  intros Hw3.
  pose proof (unsupported_chain_run engine (Main.chain_id request)
                (Main.from_address request) (Main.to_address request)
                (Main.value request) (Main.data request) (Main.gas request)
                (Main.gas_price request) t Hw3) as Hrun.
  unfold Main.simulate_transaction_handler, mbind, M_bind, attempt, lift,
    PyInt.str.
  destruct (PyInt.too_long (Main.chain_id request)); [reflexivity |].
  cbv beta iota zeta. rewrite Hrun, response_of_failure.
  eexists. split; [reflexivity |]. repeat split.
Qed.

End Handler.

Lemma strict_well_typed name v :
  Main.well_typed name v = true -> Main.strict name v = Some v.
Proof. unfold Main.strict. intros ->. reflexivity. Qed.

Lemma handler_returns_response_witness :
  exists result t',
    simulate_transaction (Examples.mainnet (Examples.healthy 21000 1000000000))
      1 Examples.alice Examples.usdc "0x989680" "0x" None None [] =
    (inr result, t') /\
    Main.simulate_transaction_handler Main.strict
      (fun _ => Exn "ValidationError" "") "2024-01-01T00:00:00"
      (Examples.mainnet (Examples.healthy 21000 1000000000))
      {| Main.chain_id := 1; Main.from_address := Examples.alice;
         Main.to_address := Examples.usdc; Main.value := "0x989680";
         Main.data := "0x"; Main.gas := None; Main.gas_price := None |} [] =
    if PyInt.too_long 1
    then (inr (Main.HTTPException 500
                 ("Simulation failed: " +:+ PyInt.str_limit_text)), [])
    else (inr (Main.Returned
                 (<["timestamp" := VStr ("2024-01-01T00:00:00" +:+ "Z")]>
                    (result ∪ Main.response_defaults))), t').
Proof.
  apply (handler_returns_response Main.strict
           (fun _ => Exn "ValidationError" "") strict_well_typed
           "2024-01-01T00:00:00"
           (Examples.mainnet (Examples.healthy 21000 1000000000))
           {| Main.chain_id := 1; Main.from_address := Examples.alice;
              Main.to_address := Examples.usdc; Main.value := "0x989680";
              Main.data := "0x"; Main.gas := None; Main.gas_price := None |} []).
Defined.

Lemma handler_defaults_on_unsupported_chain_witness :
  if PyInt.too_long 999
  then
    Main.simulate_transaction_handler Main.strict
      (fun _ => Exn "ValidationError" "") "2024-01-01T00:00:00"
      (Examples.mainnet (Examples.healthy 21000 1000000000))
      {| Main.chain_id := 999; Main.from_address := Examples.alice;
         Main.to_address := Examples.usdc; Main.value := "0x0";
         Main.data := "0x"; Main.gas := None; Main.gas_price := None |} [] =
    (inr (Main.HTTPException 500
            ("Simulation failed: " +:+ PyInt.str_limit_text)), [])
  else
    exists response,
      Main.simulate_transaction_handler Main.strict
        (fun _ => Exn "ValidationError" "") "2024-01-01T00:00:00"
        (Examples.mainnet (Examples.healthy 21000 1000000000))
        {| Main.chain_id := 999; Main.from_address := Examples.alice;
           Main.to_address := Examples.usdc; Main.value := "0x0";
           Main.data := "0x"; Main.gas := None; Main.gas_price := None |} [] =
      (inr (Main.Returned response), []) /\
      response !! "success" = Some (VBool false) /\
      response !! "error" =
        Some (VStr ("Chain " +:+ pretty 999 +:+ " not supported")) /\
      response !! "gas_used" = Some (VInt 0) /\
      response !! "gas_cost_eth" = Some (VFloat (PyFloat.of_int 0)) /\
      response !! "gas_cost_usd" = Some (VFloat (PyFloat.of_int 0)) /\
      response !! "gas_price_gwei" = Some (VFloat (PyFloat.of_int 0)) /\
      response !! "asset_changes" = Some (VChanges []) /\
      response !! "warnings" = Some (VStrs []) /\
      response !! "simulation_method" = Some (VStr "unknown").
Proof.
  apply (handler_defaults_on_unsupported_chain Main.strict
           (fun _ => Exn "ValidationError" "") strict_well_typed
           "2024-01-01T00:00:00"
           (Examples.mainnet (Examples.healthy 21000 1000000000))
           {| Main.chain_id := 999; Main.from_address := Examples.alice;
              Main.to_address := Examples.usdc; Main.value := "0x0";
              Main.data := "0x"; Main.gas := None; Main.gas_price := None |} []).
  reflexivity.
Defined.

(** The two answers of the handler on concrete requests. *)
Example handler_answers_unsupported_chain :
  exists response,
    Main.simulate_transaction_handler Main.strict
      (fun _ => Exn "ValidationError" "") "2024-01-01T00:00:00"
      (Examples.mainnet (Examples.healthy 21000 1000000000))
      {| Main.chain_id := 999; Main.from_address := Examples.alice;
         Main.to_address := Examples.usdc; Main.value := "0x0";
         Main.data := "0x"; Main.gas := None; Main.gas_price := None |} [] =
    (inr (Main.Returned response), []) /\
    response !! "error" = Some (VStr "Chain 999 not supported") /\
    response !! "gas_used" = Some (VInt 0) /\
    response !! "timestamp" = Some (VStr "2024-01-01T00:00:00Z").
Proof. eexists. split; [vm_compute; reflexivity |]. repeat split. Qed.

Example handler_answers_500 :
  Main.simulate_transaction_handler Main.strict
    (fun _ => Exn "ValidationError" "") "2024-01-01T00:00:00"
    (Examples.mainnet (Examples.healthy 21000 1000000000))
    {| Main.chain_id := 10 ^ 4300; Main.from_address := Examples.alice;
       Main.to_address := Examples.usdc; Main.value := "0x0";
       Main.data := "0x"; Main.gas := None; Main.gas_price := None |} [] =
  (inr (Main.HTTPException 500
          ("Simulation failed: Exceeds the limit (4300 digits) for integer "
           +:+ "string conversion; use sys.set_int_max_str_digits() to "
           +:+ "increase the limit")), []).
Proof. vm_compute. reflexivity. Qed.

(** ** Addresses *)

Lemma chars_cons c s :
  PyStr.chars (String c s) =
  if PyStr.continues s then
    match PyStr.chars s with
    | ch :: chs' => String c ch :: chs'
    | [] => [String c ""]
    end
  else String c "" :: PyStr.chars s.
Proof. reflexivity. Qed.

Lemma chars_char c rest s :
  all_continuation rest = true -> PyStr.continues s = false ->
  PyStr.chars (String c (rest +:+ s)) = String c rest :: PyStr.chars s.
Proof.
  revert c. induction rest as [| r rest IH]; intros c Hrest Hs.
  - change ("" +:+ s) with s. rewrite chars_cons, Hs. reflexivity.
  - cbn [all_continuation] in Hrest. apply andb_prop in Hrest as [Hr Hrest].
    change (String r rest +:+ s) with (String r (rest +:+ s)).
    rewrite chars_cons. cbn [PyStr.continues]. rewrite Hr, (IH r Hrest Hs).
    reflexivity.
Qed.

Lemma chars_join_starts l :
  forallb starts_char l = true -> PyStr.chars (PyStr.join l) = l.
Proof.
  induction l as [| ch l IH]; [reflexivity |].
  cbn [forallb]. intros [Hch Hl]%andb_prop.
  unfold starts_char in Hch. apply andb_prop in Hch as [Hc Hs].
  destruct ch as [| c rest]; [discriminate |]. cbn [is_char] in Hc.
  change (PyStr.join (String c rest :: l)) with (String c (rest +:+ PyStr.join l)).
  rewrite chars_char; [rewrite (IH Hl); reflexivity | exact Hc |].
  destruct l as [| ch2 l]; [reflexivity |].
  cbn [forallb] in Hl. apply andb_prop in Hl as [H2 _].
  unfold starts_char in H2. apply andb_prop in H2 as [H2c H2s].
  destruct ch2 as [| c2 r2]; [discriminate |].
  cbn [PyStr.join fold_right String.append PyStr.continues].
  cbn [PyStr.continues] in H2s. apply negb_true_iff in H2s. exact H2s.
Qed.

Lemma chars_join l ch :
  is_char ch = true -> forallb starts_char l = true ->
  PyStr.chars (PyStr.join (ch :: l)) = ch :: l.
Proof.
  intros Hc Hl. destruct ch as [| c rest]; [discriminate |]. cbn [is_char] in Hc.
  change (PyStr.join (String c rest :: l)) with (String c (rest +:+ PyStr.join l)).
  rewrite chars_char; [rewrite (chars_join_starts _ Hl); reflexivity | exact Hc |].
  destruct l as [| ch2 l]; [reflexivity |].
  cbn [forallb] in Hl. apply andb_prop in Hl as [H2 _].
  unfold starts_char in H2. apply andb_prop in H2 as [H2c H2s].
  destruct ch2 as [| c2 r2]; [discriminate |].
  cbn [PyStr.join fold_right String.append PyStr.continues].
  cbn [PyStr.continues] in H2s. apply negb_true_iff in H2s. exact H2s.
Qed.

(** The characters of a string have this shape. *)
Lemma chars_shape s :
  match PyStr.chars s with
  | [] => s = ""
  | ch :: l =>
      is_char ch = true /\ forallb starts_char l = true /\
      PyStr.continues ch = PyStr.continues s
  end.
Proof.
  induction s as [| c s IH]; [reflexivity |].
  rewrite chars_cons. destruct (PyStr.continues s) eqn:Hs.
  - destruct (PyStr.chars s) as [| ch l].
    + subst s. discriminate.
    + destruct IH as (Hc & Hl & Hh). repeat split; [| exact Hl].
      cbn [is_char]. destruct ch as [| a r]; [discriminate |].
      cbn [all_continuation]. cbn [is_char] in Hc. rewrite Hc, andb_true_r.
      rewrite ?Hs in Hh. exact Hh.
  - repeat split. destruct (PyStr.chars s) as [| ch l]; [reflexivity |].
    destruct IH as (Hc & Hl & Hh). cbn [forallb]. rewrite Hl, andb_true_r.
    unfold starts_char. rewrite Hc, Hh, ?Hs. reflexivity.
Qed.

Lemma starts_char_shaped l : forallb starts_char l = true -> shaped l.
Proof.
  destruct l as [| ch l]; [exact (fun _ => I) |].
  cbn [forallb shaped]. intros [Hch Hl]%andb_prop. split; [| exact Hl].
  unfold starts_char in Hch. apply andb_prop in Hch as [Hc _]. exact Hc.
Qed.

Lemma chars_shaped s : shaped (PyStr.chars s).
Proof.
  pose proof (chars_shape s) as H.
  destruct (PyStr.chars s); [exact I |]. cbn [shaped]. tauto.
Qed.

Lemma chars_join_shaped l : shaped l -> PyStr.chars (PyStr.join l) = l.
Proof.
  destruct l as [| ch l]; [reflexivity |]. intros [Hc Hl]. by apply chars_join.
Qed.

Lemma lstrip_suffix l : exists k, l = k ++ PyStr.lstrip_chars l.
Proof.
  induction l as [| ch l [k IH]]; [exists []; reflexivity |].
  cbn [PyStr.lstrip_chars]. destruct (PyStr.is_space ch).
  - exists (ch :: k). cbn [app]. congruence.
  - exists []. reflexivity.
Qed.

Lemma lstrip_head l :
  match PyStr.lstrip_chars l with
  | ch :: _ => PyStr.is_space ch = false
  | [] => True
  end.
Proof.
  induction l as [| ch l IH]; [exact I |].
  cbn [PyStr.lstrip_chars]. destruct (PyStr.is_space ch) eqn:E; [exact IH | exact E].
Qed.

Lemma lstrip_fixed l :
  match l with ch :: _ => PyStr.is_space ch = false | [] => True end ->
  PyStr.lstrip_chars l = l.
Proof.
  destruct l as [| ch l]; [reflexivity |]. cbn [PyStr.lstrip_chars].
  intros ->. reflexivity.
Qed.

Lemma lstrip_idempotent l :
  PyStr.lstrip_chars (PyStr.lstrip_chars l) = PyStr.lstrip_chars l.
Proof. apply lstrip_fixed, lstrip_head. Qed.

Lemma shaped_suffix k l : shaped (k ++ l) -> shaped l.
Proof.
  destruct k as [| ch k]; [exact (fun H => H) |].
  cbn [app shaped]. intros [_ H]. rewrite forallb_app in H.
  apply andb_prop in H as [_ H]. by apply starts_char_shaped.
Qed.

Lemma shaped_prefix l k : shaped (l ++ k) -> shaped l.
Proof.
  destruct l as [| ch l]; [exact (fun _ => I) |].
  cbn [app shaped]. intros [Hc H]. rewrite forallb_app in H.
  apply andb_prop in H as [H _]. split; assumption.
Qed.

Lemma stripped_chars_prefix s :
  exists k, PyStr.lstrip_chars (PyStr.chars s) = stripped_chars s ++ k.
Proof.
  unfold stripped_chars.
  destruct (lstrip_suffix (rev (PyStr.lstrip_chars (PyStr.chars s)))) as [k Hk].
  exists (rev k). rewrite <- rev_app_distr, <- Hk, rev_involutive. reflexivity.
Qed.

Lemma stripped_chars_shaped s : shaped (stripped_chars s).
Proof.
  destruct (stripped_chars_prefix s) as [k Hk].
  apply (shaped_prefix _ k). rewrite <- Hk.
  destruct (lstrip_suffix (PyStr.chars s)) as [k' Hk'].
  apply (shaped_suffix k'). rewrite <- Hk'. apply chars_shaped.
Qed.

Lemma strip_idempotent s : PyStr.strip (PyStr.strip s) = PyStr.strip s.
Proof.
  unfold PyStr.strip at 1. fold (stripped_chars s).
  change (PyStr.strip s) with (PyStr.join (stripped_chars s)).
  rewrite (chars_join_shaped _ (stripped_chars_shaped s)).
  assert (PyStr.lstrip_chars (stripped_chars s) = stripped_chars s) as ->.
  { apply lstrip_fixed.
    destruct (stripped_chars_prefix s) as [k Hk].
    pose proof (lstrip_head (PyStr.chars s)) as Hh. rewrite Hk in Hh.
    destruct (stripped_chars s); [exact I | exact Hh]. }
  unfold stripped_chars at 1. rewrite rev_involutive, lstrip_idempotent.
  reflexivity.
Qed.

(** X19. An address [normalize_address] accepts comes back without
    surrounding whitespace and with exactly 42 characters, and is accepted
    unchanged when it is normalized again: the address sent to the node
    passes the check it went through. *)
Theorem normalize_address_idempotent addr normalized :
  normalize_address addr = inr normalized ->
  normalize_address normalized = inr normalized /\
  PyStr.strip normalized = normalized /\
  PyStr.len normalized = 42.
Proof.
  rewrite !normalize_address_shape.
  destruct (address_shape (PyStr.strip addr)) eqn:Hs; [| discriminate].
  intros [= <-]. rewrite strip_idempotent, Hs.
  split; [reflexivity |]. split; [reflexivity |].
  unfold address_shape in Hs. apply andb_prop in Hs as [_ Hlen].
  apply Z.eqb_eq, Hlen.
Qed.

Lemma normalize_address_idempotent_witness :
  normalize_address Examples.alice = inr Examples.alice /\
  PyStr.strip Examples.alice = Examples.alice /\
  PyStr.len Examples.alice = 42.
Proof.
  apply (normalize_address_idempotent ("  " +:+ Examples.alice +:+ " ")).
  reflexivity.
Defined.
